(** * Landover Hills budget assistant: intent resolver and budget endpoints

    A shallow embedding of
      - src/src/bot/types.ts            (Year, Intent),
      - the resolver appended to src/public/assistant.js (USD, PARTIAL_NOTE,
        handleIntent),
      - the route handlers under src/app/api/budget/*/route.ts (GET),
    followed by the properties the specification states about them. *)

From Stdlib Require Import ZArith List Bool Lia.
From Stdlib Require Import Strings.Ascii Strings.String.
From Stdlib Require Import Numbers.DecimalString Numbers.DecimalPos Numbers.DecimalN.
Import ListNotations.

Local Open Scope list_scope.
Local Open Scope string_scope.

(** ** The JavaScript values the code manipulates *)

Module JS.

(** A JS [number] as the annotations of the resolver have the figures of
    the budget views: whole dollars (the totals of tests/budget.spec.ts),
    exact in a double up to 2^53 - 1 in magnitude, and [NaN], which [USD]
    tests for.  Fractions, infinities and -0 are not among them: [Runtime]
    below reads the resolver over the numbers of the platform, whatever
    they are. *)
Inductive number : Type :=
| Num (z : Z)
| NaN.

(** [T | null | undefined]. *)
Inductive nullable (A : Type) : Type :=
| Undefined
| Null
| Val (a : A).
Arguments Undefined {A}.
Arguments Null {A}.
Arguments Val {A} a.

(** [a ?? b] *)
Definition nullish {A : Type} (a : nullable A) (b : A) : A :=
  match a with
  | Val x => x
  | Null | Undefined => b
  end.

(** [row?.field] on the result of [Array.prototype.find]. *)
Definition opt_chain {A B : Type} (row : option A) (field : A -> B)
  : nullable B :=
  match row with
  | Some r => Val (field r)
  | None => Undefined
  end.

Definition sub (a b : number) : number :=
  match a, b with
  | Num x, Num y => Num (x - y)
  | _, _ => NaN
  end.

(** [a >= 0]; every comparison with NaN is false. *)
Definition ge0 (a : number) : bool :=
  match a with
  | Num x => (0 <=? x)%Z
  | NaN => false
  end.

(** [Math.abs] *)
Definition abs (a : number) : number :=
  match a with
  | Num x => Num (Z.abs x)
  | NaN => NaN
  end.

(** Decimal digits of a natural number, most significant first. *)
Definition digits (n : N) : list ascii :=
  list_ascii_of_string (NilZero.string_of_uint (N.to_uint n)).

Definition sign (z : Z) : string :=
  if (z <? 0)%Z then "-" else "".

(** [String(n)], as a template literal renders a whole number below 1e21
    in magnitude (from there on JS prints an exponent) or NaN. *)
Definition toString (a : number) : string :=
  match a with
  | Num z => sign z ++ string_of_list_ascii (digits (Z.abs_N z))
  | NaN => "NaN"
  end.

Definition comma : ascii := ",".

(** Grouping walks the digits from the least significant one; [k] counts
    the digits already emitted in the current group. *)
Fixpoint group_rev (k : nat) (ds : list ascii) : list ascii :=
  match ds with
  | [] => []
  | d :: tl =>
      match k with
      | 3 => comma :: d :: group_rev 1 tl
      | _ => d :: group_rev (S k) tl
      end
  end.

Definition group3 (ds : list ascii) : list ascii :=
  rev (group_rev 0 (rev ds)).

(** [n.toLocaleString('en-US')] on a whole number up to 2^53 - 1 in
    magnitude: grouping in threes with a comma, minus sign in front. *)
Definition toLocaleString (z : Z) : string :=
  sign z ++ string_of_list_ascii (group3 (digits (Z.abs_N z))).

(** [Array.prototype.join] *)
Fixpoint join (sep : string) (l : list string) : string :=
  match l with
  | [] => ""
  | [x] => x
  | x :: tl => x ++ sep ++ join sep tl
  end.

(** [Array.prototype.map] with the index argument, counting from [i]. *)
Fixpoint mapi_from {A B : Type} (i : nat) (f : A -> nat -> B) (l : list A)
  : list B :=
  match l with
  | [] => []
  | x :: tl => f x i :: mapi_from (S i) f tl
  end.

Definition mapi {A B : Type} (f : A -> nat -> B) (l : list A) : list B :=
  mapi_from 0 f l.

(** [String.prototype.toUpperCase] on ASCII text: a-z go to A-Z, every
    other byte is kept.  Letters outside ASCII are not raised here;
    [Runtime] below takes the platform's own [toUpperCase]. *)
Definition upper_ascii (c : ascii) : ascii :=
  let n := nat_of_ascii c in
  if (97 <=? n)%nat && (n <=? 122)%nat then ascii_of_nat (n - 32) else c.

Fixpoint toUpperCase (s : string) : string :=
  match s with
  | EmptyString => EmptyString
  | String c tl => String (upper_ascii c) (toUpperCase tl)
  end.

(** A thrown value: an [Error] instance with its message, or any other
    value (a rejected promise may carry a plain object or a string). *)
Inductive thrown : Type :=
| ErrorInstance (message : string)
| OtherValue (message : option string).

(** The result of an [await]: a value, or a rejection. *)
Inductive outcome (A : Type) : Type :=
| Ok (a : A)
| Throw (e : thrown).
Arguments Ok {A} a.
Arguments Throw {A} e.

Definition bind {A B : Type} (m : outcome A) (k : A -> outcome B)
  : outcome B :=
  match m with
  | Ok a => k a
  | Throw e => Throw e
  end.

End JS.

Notation "x <- m ;; k" := (JS.bind m (fun x => k))
  (at level 61, m at next level, right associativity).

(** ** Substring tests used to state what an answer says *)

(** [contains needle hay]: [needle] occurs somewhere in [hay]. *)
Fixpoint contains (needle hay : string) : bool :=
  prefix needle hay ||
  match hay with
  | EmptyString => false
  | String _ tl => contains needle tl
  end.

(** [ends_with suffix s]: [s] ends with [suffix]. *)
Fixpoint ends_with (suffix s : string) : bool :=
  String.eqb suffix s ||
  match s with
  | EmptyString => false
  | String _ tl => ends_with suffix tl
  end.

(** The last two characters decide whether a sentence can be the note. *)
Fixpoint last2 (s : string) : string :=
  match s with
  | String _ (String _ (String _ _) as tl) => last2 tl
  | _ => s
  end.

(** ** src/src/bot/types.ts and the resolver *)

Module Bot.
Import JS.

(** [export type Year = 'FY24'|'FY25'|'FY26'] *)
Inductive Year : Type := FY24 | FY25 | FY26.

Definition Year_eqb (a b : Year) : bool :=
  match a, b with
  | FY24, FY24 | FY25, FY25 | FY26, FY26 => true
  | _, _ => false
  end.

(** The string a [Year] is, as a template literal prints it. *)
Definition Year_str (y : Year) : string :=
  match y with
  | FY24 => "FY24"
  | FY25 => "FY25"
  | FY26 => "FY26"
  end.

(** The [action] tags of the [Intent] union, in the order of the switch. *)
Definition known_actions : list string :=
  [ "year_total"; "yoy_difference"; "yoy_all"; "category_rank";
    "category_share"; "line_item_total"; "help" ].

Definition known_action (a : string) : bool :=
  existsb (String.eqb a) known_actions.

(** [export type Intent]: the seven variants of the union.  The classifier
    is external, so [handleIntent] keeps a [default] branch; [unlisted] is a
    value whose tag is none of the seven. *)
Inductive Intent : Type :=
| year_total (year : Year) (partial_data : nullable bool)
| yoy_difference (year_from year_to : Year)
| yoy_all
| category_rank (year : Year) (top_n : nullable number)
| category_share (year : Year) (category : string)
| line_item_total (year : Year) (category line_item : string)
| help (question : string)
| unlisted (tag : string) (outside : known_action tag = false).

Definition action (i : Intent) : string :=
  match i with
  | year_total _ _ => "year_total"
  | yoy_difference _ _ => "yoy_difference"
  | yoy_all => "yoy_all"
  | category_rank _ _ => "category_rank"
  | category_share _ _ => "category_share"
  | line_item_total _ _ _ => "line_item_total"
  | help _ => "help"
  | unlisted tag _ => tag
  end.

(** [const USD = (n) => typeof n === 'number' && !isNaN(n)
      ? `$${n.toLocaleString('en-US')}` : '$0'] *)
Definition USD (n : nullable number) : string :=
  match n with
  | Val (Num z) => "$" ++ toLocaleString z
  | Val NaN | Null | Undefined => "$0"
  end.

Definition PARTIAL_NOTE : string := "Note: FY26 data is partial.".

Definition nl : string := String (ascii_of_nat 10) "".

(** Rows as the resolver's annotations declare them. *)
Record YearTotalRow : Type :=
  { yt_fiscal_year : Year; yt_total : number }.

Record YoYRow : Type :=
  { yoy_fiscal_year : Year; yoy_total : number;
    yoy_change : nullable number }.

Record CategoryRow : Type :=
  { cat_category : string; cat_total : number }.

(** The [json] of /api/budget/category: the resolver reads [json.data]
    (guarded by [rows?.length]) and the truthiness of [json.partial]. *)
Record CategoryJson : Type :=
  { cj_data : nullable (list CategoryRow); cj_partial : bool }.

(** The [json] of /api/budget/line-item: [json.total], [json.partial]. *)
Record LineItemJson : Type :=
  { li_total : nullable number; li_partial : bool }.

Section Resolver.

(** [pct_of_year] is a fractional JS number; the resolver only prints it,
    so the type and [String(pct)] are taken as given. *)
Variable pct : Type.
Variable pct_str : pct -> string.

Record ShareRow : Type :=
  { sh_category : string; sh_total : number; sh_pct_of_year : pct }.

(** The [json] of /api/budget/shares: the resolver reads [json.data]. *)
Record SharesJson : Type :=
  { sj_data : list ShareRow; sj_partial : bool }.

(** What [fetch(...)] followed by [res.json()] yields for each request
    the resolver sends; the query string is kept as its parameters. *)
Record Backend : Type :=
  { fetch_year_totals : outcome (list YearTotalRow);
    fetch_yoy : outcome (list YoYRow);
    fetch_category : Year -> number -> outcome CategoryJson;
    fetch_shares : Year -> outcome SharesJson;
    fetch_line_item : Year -> string -> string -> outcome LineItemJson }.

Definition yoy_line (r : YoYRow) : string :=
  match yoy_change r with
  | Null | Undefined =>
      Year_str (yoy_fiscal_year r) ++ ": base " ++ USD (Val (yoy_total r))
  | Val change =>
      let sign := if ge0 change then "+" else "−" in
      Year_str (yoy_fiscal_year r) ++ ": " ++ sign
        ++ USD (Val (abs change))
        ++ " (total " ++ USD (Val (yoy_total r)) ++ ")"
  end.

Definition rank_line (r : CategoryRow) (i : nat) : string :=
  toString (Num (Z.of_nat (i + 1))) ++ ". " ++ cat_category r ++ ": "
    ++ USD (Val (cat_total r)).

(** [export async function handleIntent(intent: Intent): Promise<string>] *)
Definition handleIntent (intent : Intent) (api : Backend)
  : outcome string :=
  match intent with
  | year_total year _ =>
      rows <- fetch_year_totals api ;;
      let row := find (fun r => Year_eqb (yt_fiscal_year r) year) rows in
      let msg := "Total " ++ Year_str year ++ " budget: "
                   ++ USD (opt_chain row yt_total)
                   ++ ". Source: v_year_totals(" ++ Year_str year ++ ")." in
      Ok (if Year_eqb year FY26 then msg ++ " " ++ PARTIAL_NOTE else msg)
  | yoy_difference year_from year_to =>
      rows <- fetch_yoy api ;;
      let toRow := find (fun r => Year_eqb (yoy_fiscal_year r) year_to) rows in
      let fromRow :=
        find (fun r => Year_eqb (yoy_fiscal_year r) year_from) rows in
      match toRow, fromRow with
      | Some toRow, Some fromRow =>
          let delta := sub (yoy_total toRow) (yoy_total fromRow) in
          let msg := "Change from " ++ Year_str year_from ++ " to "
                       ++ Year_str year_to ++ ": " ++ USD (Val delta)
                       ++ " (" ++ USD (Val (yoy_total fromRow)) ++ " → "
                       ++ USD (Val (yoy_total toRow))
                       ++ "). Source: v_year_yoy." in
          Ok (if Year_eqb year_to FY26 || Year_eqb year_from FY26
              then msg ++ " " ++ PARTIAL_NOTE else msg)
      | _, _ => Ok "I could not find the requested years."
      end
  | yoy_all =>
      rows <- fetch_yoy api ;;
      let lines := map yoy_line rows in
      let msg := "Year-over-year changes:" ++ nl ++ "- "
                   ++ join (nl ++ "- ") lines ++ nl
                   ++ "Source: v_year_yoy." in
      Ok (if existsb (fun r => Year_eqb (yoy_fiscal_year r) FY26) rows
          then msg ++ nl ++ PARTIAL_NOTE else msg)
  | category_rank year top_n =>
      let limit := nullish top_n (Num 10) in
      json <- fetch_category api year limit ;;
      match cj_data json with
      | Val (r :: tl) =>
          let rows := r :: tl in
          let list := join nl (mapi rank_line rows) in
          let msg := "Top " ++ toString limit ++ " categories in "
                       ++ Year_str year ++ ":" ++ nl ++ list ++ nl
                       ++ "Source: v_category_totals(" ++ Year_str year
                       ++ ")." in
          Ok (if cj_partial json then msg ++ nl ++ PARTIAL_NOTE else msg)
      | Val [] | Null | Undefined =>
          Ok ("No categories found for " ++ Year_str year ++ ".")
      end
  | category_share year category =>
      json <- fetch_shares api year ;;
      let rows := sj_data json in
      let row :=
        find (fun r => String.eqb (toUpperCase (sh_category r))
                                  (toUpperCase category)) rows in
      match row with
      | None =>
          Ok ("No data for " ++ category ++ " in " ++ Year_str year ++ ".")
      | Some row =>
          let msg := category ++ " in " ++ Year_str year ++ ": "
                       ++ USD (Val (sh_total row)) ++ " ("
                       ++ pct_str (sh_pct_of_year row)
                       ++ "% of total). Source: v_category_shares("
                       ++ Year_str year ++ ")." in
          Ok (if Year_eqb year FY26 then msg ++ " " ++ PARTIAL_NOTE
              else msg)
      end
  | line_item_total year category line_item =>
      json <- fetch_line_item api year category line_item ;;
      let msg := Year_str year ++ " " ++ category ++ " → " ++ line_item
                   ++ ": " ++ USD (li_total json)
                   ++ ". Source: v_line_items." in
      Ok (if li_partial json then msg ++ " " ++ PARTIAL_NOTE else msg)
  | help question => Ok question
  | unlisted _ _ => Ok "Sorry, I could not interpret that request."
  end.

End Resolver.

Arguments sh_category {pct} _.
Arguments sh_total {pct} _.
Arguments sh_pct_of_year {pct} _.
Arguments sj_data {pct} _.
Arguments sj_partial {pct} _.
Arguments fetch_year_totals {pct} _.
Arguments fetch_yoy {pct} _.
Arguments fetch_category {pct} _ _ _.
Arguments fetch_shares {pct} _ _.
Arguments fetch_line_item {pct} _ _ _ _.
Arguments handleIntent {pct} pct_str intent api.

End Bot.

(** ** src/app/api/budget/*/route.ts *)

Module Api.
Import JS.

Set Warnings "-register-all".

(** The JSON a handler puts in its response. *)
Inductive json : Type :=
| JNull
| JBool (b : bool)
| JNumber (n : number)
| JString (s : string)
| JArray (items : list json)
| JObject (fields : list (string * json)).

Record Response : Type := { status : nat; body : json }.

(** [JSON.stringify], which writes the body: a number that is not finite
    is written [null].  [body] is the JSON the client reads back. *)
Fixpoint serialise (j : json) : json :=
  match j with
  | JNumber NaN => JNull
  | JArray items => JArray (map serialise items)
  | JObject fields =>
      JObject (map (fun kv => (fst kv, serialise (snd kv))) fields)
  | JNull | JBool _ | JNumber (Num _) | JString _ => j
  end.

(** [NextResponse.json(body)] answers 200, [NextResponse.json(body,
    { status })] the given status. *)
Definition NextResponse_json (b : json) (init : option nat) : Response :=
  {| status := match init with Some s => s | None => 200 end;
     body := serialise b |}.

(** [req.nextUrl.searchParams] and its [get], which is [null] for a
    parameter that is not there. *)
Definition SearchParams : Type := list (string * string).

Fixpoint get (name : string) (ps : SearchParams) : option string :=
  match ps with
  | [] => None
  | (k, v) :: tl => if String.eqb k name then Some v else get name tl
  end.

(** [a ?? b] on the result of [get]. *)
Definition or_default (a : option string) (b : string) : string :=
  match a with
  | Some v => v
  | None => b
  end.

(** [try { ... } catch (error) { ... }] around awaited calls. *)
Definition try_catch (block : outcome Response)
           (handler : thrown -> Response) : Response :=
  match block with
  | Ok r => r
  | Throw error => handler error
  end.

(** [error instanceof Error ? error.message : 'Unknown error'] *)
Definition details_of (error : thrown) : string :=
  match error with
  | ErrorInstance message => message
  | OtherValue _ => "Unknown error"
  end.

(** What the handlers import from '@/src/lib/budget', which is not among
    the sources: the query functions are taken as given, each one an
    awaited call that may reject; [Number] is the JS coercion of a string. *)
Record BudgetLib : Type :=
  { getYearTotals : outcome json;
    getYoY : outcome json;
    getCategoryRanking : string -> number -> outcome json;
    getCategoryShares : string -> outcome json;
    getLineItemTotal : string -> string -> string -> outcome number;
    getCategoryYoY : string -> string -> string -> outcome json;
    Number : string -> number }.

(** Modelled from the spec: [isPartial] of '@/src/lib/budget' is missing;
    the spec has it a pure function of fiscal year identity with one
    hardcoded incomplete year, FY26. *)
Definition isPartial (year : string) : bool := String.eqb year "FY26".

(** Modelled from the spec: [usd] of '@/src/lib/budget' is missing; the
    spec has one currency format, US dollars with thousands separators. *)
Definition usd (n : number) : string := Bot.USD (Val n).

Module year_totals.
Definition GET (lib : BudgetLib) : Response :=
  try_catch
    (data <- getYearTotals lib ;;
     Ok (NextResponse_json
           (JObject [ ("success", JBool true);
                      ("data", data);
                      ("message",
                        JString "Year totals retrieved successfully") ])
           None))
    (fun error =>
       NextResponse_json
         (JObject [ ("success", JBool false);
                    ("error", JString "Failed to fetch year totals");
                    ("details", JString (details_of error)) ])
         (Some 500)).
End year_totals.

Module yoy.
Definition GET (lib : BudgetLib) : Response :=
  try_catch
    (data <- getYoY lib ;;
     Ok (NextResponse_json
           (JObject [ ("success", JBool true);
                      ("data", data);
                      ("message",
                        JString
                          "Year-over-year data retrieved successfully") ])
           None))
    (fun error =>
       NextResponse_json
         (JObject [ ("success", JBool false);
                    ("error",
                      JString "Failed to fetch year-over-year data");
                    ("details", JString (details_of error)) ])
         (Some 500)).
End yoy.

Module category.
Definition GET (lib : BudgetLib) (searchParams : SearchParams)
  : Response :=
  try_catch
    (let year := or_default (get "year" searchParams) "FY25" in
     let limit :=
       match get "limit" searchParams with
       | Some l => Number lib l
       | None => Num 10
       end in
     data <- getCategoryRanking lib year limit ;;
     Ok (NextResponse_json
           (JObject [ ("success", JBool true);
                      ("year", JString year);
                      ("partial", JBool (isPartial year));
                      ("data", data);
                      ("message",
                        JString ("Category rankings for " ++ year
                                   ++ " retrieved successfully")) ])
           None))
    (fun error =>
       NextResponse_json
         (JObject [ ("success", JBool false);
                    ("error", JString "Failed to fetch category rankings");
                    ("details", JString (details_of error)) ])
         (Some 500)).
End category.

Module shares.
Definition GET (lib : BudgetLib) (searchParams : SearchParams)
  : Response :=
  try_catch
    (let year := or_default (get "year" searchParams) "FY25" in
     data <- getCategoryShares lib year ;;
     Ok (NextResponse_json
           (JObject [ ("success", JBool true);
                      ("year", JString year);
                      ("partial", JBool (isPartial year));
                      ("data", data);
                      ("message",
                        JString ("Category shares for " ++ year
                                   ++ " retrieved successfully")) ])
           None))
    (fun error =>
       NextResponse_json
         (JObject [ ("success", JBool false);
                    ("error", JString "Failed to fetch category shares");
                    ("details", JString (details_of error)) ])
         (Some 500)).
End shares.

Module line_item.
Definition GET (lib : BudgetLib) (searchParams : SearchParams)
  : Response :=
  try_catch
    (let year := or_default (get "year" searchParams) "FY24" in
     let category :=
       or_default (get "category" searchParams) "ADMINISTRATION" in
     let lineItem :=
       or_default (get "lineItem" searchParams) "Payroll Taxes" in
     total <- getLineItemTotal lib year category lineItem ;;
     Ok (NextResponse_json
           (JObject [ ("success", JBool true);
                      ("year", JString year);
                      ("category", JString category);
                      ("lineItem", JString lineItem);
                      ("total", JNumber total);
                      ("formatted", JString (usd total));
                      ("partial", JBool (isPartial year));
                      ("message",
                        JString ("Line item total for " ++ lineItem
                                   ++ " in " ++ category ++ " (" ++ year
                                   ++ ") retrieved successfully")) ])
           None))
    (fun error =>
       NextResponse_json
         (JObject [ ("success", JBool false);
                    ("error", JString "Failed to fetch line item total");
                    ("details", JString (details_of error)) ])
         (Some 500)).
End line_item.

Module category_yoy.
Definition GET (lib : BudgetLib) (searchParams : SearchParams)
  : Response :=
  try_catch
    (let year1 := or_default (get "year1" searchParams) "FY24" in
     let year2 := or_default (get "year2" searchParams) "FY25" in
     let category := or_default (get "category" searchParams) "" in
     if String.eqb category ""
     then
       Ok (NextResponse_json
             (JObject [ ("success", JBool false);
                        ("error",
                          JString "Category parameter is required") ])
             (Some 400))
     else
       data <- getCategoryYoY lib year1 year2 category ;;
       Ok (NextResponse_json
             (JObject [ ("success", JBool true);
                        ("year1", JString year1);
                        ("year2", JString year2);
                        ("category", JString category);
                        ("data", data);
                        ("message",
                          JString ("Category YoY change for " ++ category
                                     ++ " from " ++ year1 ++ " to "
                                     ++ year2
                                     ++ " retrieved successfully")) ])
             None))
    (fun error =>
       NextResponse_json
         (JObject [ ("success", JBool false);
                    ("error",
                      JString
                        "Failed to fetch category year-over-year data");
                    ("details", JString (details_of error)) ])
         (Some 500)).
End category_yoy.

End Api.

(** ** The resolver at run time

    [handleIntent] again, this time on what it really receives: whatever
    JSON [res.json()] parsed, read with the property accesses, method
    calls and coercions of the source, and with the built-ins of the
    platform taken as given.  [Bot.handleIntent] above is the same code
    read under its type annotations. *)

Module Runtime.
Import JS.

Set Warnings "-register-all".

(** How the body of the async function ends: it returns, or its promise
    is rejected, either with the value an awaited request was rejected
    with, or with a TypeError the body itself threw (a property of [null]
    or [undefined], a call of something that is no function). *)
Inductive completion (A : Type) : Type :=
| Returns (a : A)
| Rejects (e : thrown)
| TypeError.
Arguments Returns {A} a.
Arguments Rejects {A} e.
Arguments TypeError {A}.

Definition bind {A B : Type} (m : completion A) (k : A -> completion B)
  : completion B :=
  match m with
  | Returns a => k a
  | Rejects e => Rejects e
  | TypeError => TypeError
  end.

Notation "x <~ m ;; k" := (bind m (fun x => k))
  (at level 61, m at next level, right associativity).

(** [await fetch(...)] then [await res.json()]. *)
Definition await {A : Type} (o : outcome A) : completion A :=
  match o with
  | Ok a => Returns a
  | Throw e => Rejects e
  end.

(** The decimal digits of an array index plus one, [`${i+1}`]. *)
Definition decimal (n : nat) : string :=
  string_of_list_ascii (digits (N.of_nat n)).

Section Platform.

(** The JS numbers, whatever they are: doubles, with their fractions,
    infinities, zeros and NaN. *)
Variable num : Type.

(** A JSON value, or [undefined] (what reading a property that is not
    there gives).  An object is the list of its own properties. *)
Inductive value : Type :=
| VUndefined
| VNull
| VBool (b : bool)
| VNumber (n : num)
| VString (s : string)
| VArray (items : list value)
| VObject (props : list (string * value)).

(** The built-ins the resolver calls. *)
Record Platform : Type :=
  { isNaN : num -> bool;                     (* isNaN(n) *)
    toLocaleString_en_US : num -> string;    (* n.toLocaleString('en-US') *)
    Number_toString : num -> string;         (* String(n) *)
    StringToNumber : string -> num;          (* Number(s) *)
    subtract : num -> num -> num;            (* a - b *)
    Math_abs : num -> num;                   (* Math.abs(a) *)
    ge_zero : num -> bool;                   (* a >= 0 *)
    nonzero : num -> bool;                   (* a is not 0, -0 or NaN *)
    zero : num;
    one : num;
    nan : num;
    ten : num;
    String_toUpperCase : string -> string }. (* s.toUpperCase() *)

Variable P : Platform.

(** [v.name] where [v] is neither [null] nor [undefined], for the names
    the resolver reads (none is [length], none is inherited): an own
    property of an object, [undefined] on anything else. *)
Definition member (name : string) (v : value) : value :=
  match v with
  | VObject props =>
      match find (fun kv => String.eqb (fst kv) name) props with
      | Some kv => snd kv
      | None => VUndefined
      end
  | _ => VUndefined
  end.

(** [v.name] *)
Definition prop (name : string) (v : value) : completion value :=
  match v with
  | VUndefined | VNull => TypeError
  | _ => Returns (member name v)
  end.

(** [rows.find(...)], [rows.map(...)]: only an array has the method. *)
Definition as_array (rows : value) : completion (list value) :=
  match rows with
  | VArray items => Returns items
  | _ => TypeError
  end.

(** [v === s] for a string [s] *)
Definition is_string (s : string) (v : value) : bool :=
  match v with
  | VString t => String.eqb t s
  | _ => false
  end.

(** [v == null] *)
Definition is_nullish (v : value) : bool :=
  match v with
  | VUndefined | VNull => true
  | _ => false
  end.

(** The truthiness of a value. *)
Definition ToBoolean (v : value) : bool :=
  match v with
  | VUndefined | VNull => false
  | VBool b => b
  | VNumber n => nonzero P n
  | VString s => negb (String.eqb s "")
  | VArray _ | VObject _ => true
  end.

(** The truthiness of [rows?.length]. *)
Definition has_length (rows : value) : bool :=
  match rows with
  | VArray items => match items with [] => false | _ :: _ => true end
  | VString s => negb (String.eqb s "")
  | VObject _ => ToBoolean (member "length" rows)
  | VUndefined | VNull | VBool _ | VNumber _ => false
  end.

(** A value in a template literal. *)
Fixpoint ToString (v : value) : string :=
  match v with
  | VUndefined => "undefined"
  | VNull => "null"
  | VBool true => "true"
  | VBool false => "false"
  | VNumber n => Number_toString P n
  | VString s => s
  | VArray items =>
      (fix elements (l : list value) : string :=
         match l with
         | [] => ""
         | x :: tl =>
             let text :=
               match x with
               | VUndefined | VNull => ""
               | _ => ToString x
               end in
             match tl with
             | [] => text
             | _ :: _ => text ++ "," ++ elements tl
             end
         end) items
  | VObject _ => "[object Object]"
  end.

(** A value in arithmetic: [a - b], [a >= 0], [Math.abs(a)]. *)
Definition ToNumber (v : value) : num :=
  match v with
  | VUndefined => nan P
  | VNull => zero P
  | VBool true => one P
  | VBool false => zero P
  | VNumber n => n
  | VString _ | VArray _ | VObject _ => StringToNumber P (ToString v)
  end.

(** [const USD = (n) => typeof n === 'number' && !isNaN(n)
      ? `$${n.toLocaleString('en-US')}` : '$0'] *)
Definition USD (n : value) : string :=
  match n with
  | VNumber x =>
      if isNaN P x then "$0" else "$" ++ toLocaleString_en_US P x
  | _ => "$0"
  end.

(** [Intent], with [top_n] any number. *)
Inductive Intent : Type :=
| year_total (year : Bot.Year) (partial_data : nullable bool)
| yoy_difference (year_from year_to : Bot.Year)
| yoy_all
| category_rank (year : Bot.Year) (top_n : nullable num)
| category_share (year : Bot.Year) (category : string)
| line_item_total (year : Bot.Year) (category line_item : string)
| help (question : string)
| unlisted (tag : string) (outside : Bot.known_action tag = false).

(** What [fetch(...)] and [res.json()] yield for each request: the parsed
    body, or a rejection. *)
Record Backend : Type :=
  { fetch_year_totals : outcome value;
    fetch_yoy : outcome value;
    fetch_category : Bot.Year -> num -> outcome value;
    fetch_shares : Bot.Year -> outcome value;
    fetch_line_item : Bot.Year -> string -> string -> outcome value }.

(** [rows.find(r => r.fiscal_year === year)]: the callback runs on the
    elements in order, up to the first it accepts. *)
Fixpoint find_by_year (year : string) (items : list value)
  : completion (option value) :=
  match items with
  | [] => Returns None
  | r :: tl =>
      fiscal_year <~ prop "fiscal_year" r ;;
      if is_string year fiscal_year then Returns (Some r)
      else find_by_year year tl
  end.

(** [rows.find(r => r.category.toUpperCase() === wanted)] *)
Fixpoint find_by_category (wanted : string) (items : list value)
  : completion (option value) :=
  match items with
  | [] => Returns None
  | r :: tl =>
      category <~ prop "category" r ;;
      match category with
      | VString name =>
          if String.eqb (String_toUpperCase P name) wanted
          then Returns (Some r)
          else find_by_category wanted tl
      | _ => TypeError
      end
  end.

(** [rows.map(f)] for a callback that may throw. *)
Fixpoint map_from {A : Type} (i : nat) (f : value -> nat -> completion A)
         (items : list value) : completion (list A) :=
  match items with
  | [] => Returns []
  | r :: tl =>
      x <~ f r i ;;
      rest <~ map_from (S i) f tl ;;
      Returns (x :: rest)
  end.

Definition yoy_line (r : value) (i : nat) : completion string :=
  yoy_change <~ prop "yoy_change" r ;;
  if is_nullish yoy_change
  then Returns (ToString (member "fiscal_year" r) ++ ": base "
                  ++ USD (member "total" r))
  else
    let sign := if ge_zero P (ToNumber yoy_change) then "+" else "−" in
    Returns (ToString (member "fiscal_year" r) ++ ": " ++ sign
               ++ USD (VNumber (Math_abs P (ToNumber yoy_change)))
               ++ " (total " ++ USD (member "total" r) ++ ")").

Definition rank_line (r : value) (i : nat) : completion string :=
  category <~ prop "category" r ;;
  Returns (decimal (i + 1) ++ ". " ++ ToString category ++ ": "
             ++ USD (member "total" r)).

(** [row?.total] *)
Definition total_of (row : option value) : value :=
  match row with
  | Some r => member "total" r
  | None => VUndefined
  end.

(** [export async function handleIntent(intent: Intent): Promise<string>] *)
Definition handleIntent (intent : Intent) (api : Backend)
  : completion string :=
  match intent with
  | year_total year _ =>
      rows <~ await (fetch_year_totals api) ;;
      items <~ as_array rows ;;
      row <~ find_by_year (Bot.Year_str year) items ;;
      let msg := "Total " ++ Bot.Year_str year ++ " budget: "
                   ++ USD (total_of row)
                   ++ ". Source: v_year_totals(" ++ Bot.Year_str year
                   ++ ")." in
      Returns (if Bot.Year_eqb year Bot.FY26
               then msg ++ " " ++ Bot.PARTIAL_NOTE else msg)
  | yoy_difference year_from year_to =>
      rows <~ await (fetch_yoy api) ;;
      items <~ as_array rows ;;
      toRow <~ find_by_year (Bot.Year_str year_to) items ;;
      fromRow <~ find_by_year (Bot.Year_str year_from) items ;;
      match toRow, fromRow with
      | Some toRow, Some fromRow =>
          let delta :=
            subtract P (ToNumber (member "total" toRow))
              (ToNumber (member "total" fromRow)) in
          let msg := "Change from " ++ Bot.Year_str year_from ++ " to "
                       ++ Bot.Year_str year_to ++ ": "
                       ++ USD (VNumber delta)
                       ++ " (" ++ USD (member "total" fromRow) ++ " → "
                       ++ USD (member "total" toRow)
                       ++ "). Source: v_year_yoy." in
          Returns (if Bot.Year_eqb year_to Bot.FY26
                      || Bot.Year_eqb year_from Bot.FY26
                   then msg ++ " " ++ Bot.PARTIAL_NOTE else msg)
      | _, _ => Returns "I could not find the requested years."
      end
  | yoy_all =>
      rows <~ await (fetch_yoy api) ;;
      items <~ as_array rows ;;
      lines <~ map_from 0 yoy_line items ;;
      let msg := "Year-over-year changes:" ++ Bot.nl ++ "- "
                   ++ join (Bot.nl ++ "- ") lines ++ Bot.nl
                   ++ "Source: v_year_yoy." in
      Returns (if existsb
                    (fun r => is_string "FY26" (member "fiscal_year" r))
                    items
               then msg ++ Bot.nl ++ Bot.PARTIAL_NOTE else msg)
  | category_rank year top_n =>
      let limit := nullish top_n (ten P) in
      json <~ await (fetch_category api year limit) ;;
      rows <~ prop "data" json ;;
      if has_length rows then
        items <~ as_array rows ;;
        lines <~ map_from 0 rank_line items ;;
        let msg := "Top " ++ Number_toString P limit ++ " categories in "
                     ++ Bot.Year_str year ++ ":" ++ Bot.nl
                     ++ join Bot.nl lines ++ Bot.nl
                     ++ "Source: v_category_totals(" ++ Bot.Year_str year
                     ++ ")." in
        Returns (if ToBoolean (member "partial" json)
                 then msg ++ Bot.nl ++ Bot.PARTIAL_NOTE else msg)
      else Returns ("No categories found for " ++ Bot.Year_str year ++ ".")
  | category_share year category =>
      json <~ await (fetch_shares api year) ;;
      rows <~ prop "data" json ;;
      items <~ as_array rows ;;
      row <~ find_by_category (String_toUpperCase P category) items ;;
      match row with
      | None =>
          Returns ("No data for " ++ category ++ " in "
                     ++ Bot.Year_str year ++ ".")
      | Some row =>
          let msg := category ++ " in " ++ Bot.Year_str year ++ ": "
                       ++ USD (member "total" row) ++ " ("
                       ++ ToString (member "pct_of_year" row)
                       ++ "% of total). Source: v_category_shares("
                       ++ Bot.Year_str year ++ ")." in
          Returns (if Bot.Year_eqb year Bot.FY26
                   then msg ++ " " ++ Bot.PARTIAL_NOTE else msg)
      end
  | line_item_total year category line_item =>
      json <~ await (fetch_line_item api year category line_item) ;;
      total <~ prop "total" json ;;
      let msg := Bot.Year_str year ++ " " ++ category ++ " → " ++ line_item
                   ++ ": " ++ USD total ++ ". Source: v_line_items." in
      Returns (if ToBoolean (member "partial" json)
               then msg ++ " " ++ Bot.PARTIAL_NOTE else msg)
  | help question => Returns question
  | unlisted _ _ => Returns "Sorry, I could not interpret that request."
  end.

End Platform.

Arguments VUndefined {num}.
Arguments VNull {num}.
Arguments VBool {num} b.
Arguments VNumber {num} n.
Arguments VString {num} s.
Arguments VArray {num} items.
Arguments VObject {num} props.
Arguments isNaN {num} _ _.
Arguments toLocaleString_en_US {num} _ _.
Arguments Number_toString {num} _ _.
Arguments StringToNumber {num} _ _.
Arguments subtract {num} _ _ _.
Arguments Math_abs {num} _ _.
Arguments ge_zero {num} _ _.
Arguments nonzero {num} _ _.
Arguments zero {num} _.
Arguments one {num} _.
Arguments nan {num} _.
Arguments ten {num} _.
Arguments String_toUpperCase {num} _ _.
Arguments member {num} name v.
Arguments prop {num} name v.
Arguments as_array {num} rows.
Arguments is_string {num} s v.
Arguments is_nullish {num} v.
Arguments ToBoolean {num} P v.
Arguments has_length {num} P rows.
Arguments ToString {num} P v.
Arguments ToNumber {num} P v.
Arguments USD {num} P n.
Arguments year_total {num} year partial_data.
Arguments yoy_difference {num} year_from year_to.
Arguments yoy_all {num}.
Arguments category_rank {num} year top_n.
Arguments category_share {num} year category.
Arguments line_item_total {num} year category line_item.
Arguments help {num} question.
Arguments unlisted {num} tag outside.
Arguments fetch_year_totals {num} _.
Arguments fetch_yoy {num} _.
Arguments fetch_category {num} _ _ _.
Arguments fetch_shares {num} _ _.
Arguments fetch_line_item {num} _ _ _ _.
Arguments find_by_year {num} year items.
Arguments find_by_category {num} P wanted items.
Arguments map_from {num A} i f items.
Arguments yoy_line {num} P r i.
Arguments rank_line {num} P r i.
Arguments total_of {num} row.
Arguments handleIntent {num} P intent api.

(** What a route's body is when the resolver has parsed it. *)
Fixpoint parsed (j : Api.json) : value number :=
  match j with
  | Api.JNull => VNull
  | Api.JBool b => VBool b
  | Api.JNumber n => VNumber n
  | Api.JString s => VString s
  | Api.JArray items => VArray (map parsed items)
  | Api.JObject fields =>
      VObject (map (fun kv => (fst kv, parsed (snd kv))) fields)
  end.

End Runtime.

(** ** src/public/assistant.js: the chat widget *)

Module Widget.

(** What [toggle], [close], [minimize], [expand] and [updateWidgetState]
    read and write: the two flags of the widget, the class 'open' of the
    panel, the inline [display] of the full button and the class 'show' of
    the minimized button. *)
Record State : Type :=
  { isOpen : bool;
    isMinimized : bool;
    panel_open : bool;
    toggle_display : string;
    minimized_show : bool }.

Definition set_flags (w : State) (open minimized : bool) : State :=
  {| isOpen := open; isMinimized := minimized;
     panel_open := panel_open w; toggle_display := toggle_display w;
     minimized_show := minimized_show w |}.

Definition updateWidgetState (w : State) : State :=
  if isOpen w then
    {| isOpen := isOpen w; isMinimized := isMinimized w;
       panel_open := true; toggle_display := "none";
       minimized_show := false |}
  else if isMinimized w then
    {| isOpen := isOpen w; isMinimized := isMinimized w;
       panel_open := false; toggle_display := "none";
       minimized_show := true |}
  else
    {| isOpen := isOpen w; isMinimized := isMinimized w;
       panel_open := false; toggle_display := "flex";
       minimized_show := false |}.

Definition toggle (w : State) : State :=
  updateWidgetState (set_flags w (negb (isOpen w)) false).

Definition close (w : State) : State :=
  updateWidgetState (set_flags w false false).

Definition minimize (w : State) : State :=
  updateWidgetState (set_flags w false true).

Definition expand (w : State) : State :=
  updateWidgetState (set_flags w true false).

(** The constructor sets both flags to false; [createWidget] builds the
    markup (panel without 'open', button without inline style, minimized
    button without 'show') and ends with [updateWidgetState]. *)
Definition created : State :=
  updateWidgetState
    {| isOpen := false; isMinimized := false;
       panel_open := false; toggle_display := ""; minimized_show := false |}.

(** The clicks [attachEventListeners] binds to the four methods. *)
Inductive click : Type :=
| ClickToggle | ClickClose | ClickMinimize | ClickExpand.

Definition on_click (w : State) (c : click) : State :=
  match c with
  | ClickToggle => toggle w
  | ClickClose => close w
  | ClickMinimize => minimize w
  | ClickExpand => expand w
  end.

Definition after_clicks (cs : list click) : State :=
  fold_left on_click cs created.

(** An element of [querySelectorAll('.budget-assistant-message')]: the
    element itself (its identity, for [===]), whether its class list has
    'user', and the text of its bubble. *)
Record MessageDiv : Type :=
  { element : nat; is_user : bool; bubble_text : string }.

(** The inner loop of [getQuestionFromMessage]: [j] from [i - 1] down to 0,
    over the elements before position [i], nearest first. *)
Fixpoint previous_user (earlier : list MessageDiv) : string :=
  match earlier with
  | [] => ""
  | m :: tl => if is_user m then bubble_text m else previous_user tl
  end.

(** The outer loop: [i] from the last element down to 0. *)
Fixpoint scan_back (from_last : list MessageDiv) (messageDiv : nat)
  : string :=
  match from_last with
  | [] => ""
  | m :: earlier =>
      if Nat.eqb (element m) messageDiv then previous_user earlier
      else scan_back earlier messageDiv
  end.

Definition getQuestionFromMessage (allMessages : list MessageDiv)
           (messageDiv : nat) : string :=
  scan_back (rev allMessages) messageDiv.

Definition star : ascii := "*".
Definition line_feed : ascii := ascii_of_nat 10.
Definition carriage_return : ascii := ascii_of_nat 13.

(** [insights.replace(/\n/g, '<br>')] *)
Fixpoint replace_newlines (s : string) : string :=
  match s with
  | EmptyString => EmptyString
  | String c tl =>
      if Ascii.eqb c line_feed then "<br>" ++ replace_newlines tl
      else String c (replace_newlines tl)
  end.

(** [.] does not match a line terminator: LF, CR, U+2028 and U+2029 (in
    UTF-8 the bytes E2 80 A8 and E2 80 A9). *)
Definition at_line_terminator (s : string) : bool :=
  match s with
  | EmptyString => false
  | String c tl =>
      Ascii.eqb c line_feed || Ascii.eqb c carriage_return
      || (Nat.eqb (nat_of_ascii c) 226
          && match tl with
             | String c1 (String c2 _) =>
                 Nat.eqb (nat_of_ascii c1) 128
                 && (Nat.eqb (nat_of_ascii c2) 168
                     || Nat.eqb (nat_of_ascii c2) 169)
             | _ => false
             end)
  end.

(** [(.*?)\*\*] after an opening [**]: the group takes as few characters
    as it can, so at each position the closing [**] is tried first and one
    more character is taken only when it is not there.  [k] formats what
    follows the match; [group] is the text captured so far. *)
Definition close_bold (k : string -> string)
  : string -> string -> option string :=
  fix close (t group : string) {struct t} : option string :=
    match t with
    | EmptyString => None
    | String c t' =>
        let more :=
          if at_line_terminator t then None
          else close t' (group ++ String c EmptyString) in
        if Ascii.eqb c star then
          match t' with
          | String d rest =>
              if Ascii.eqb d star
              then Some ("<strong>" ++ group ++ "</strong>" ++ k rest)
              else more
          | EmptyString => more
          end
        else more
    end.

(** [.replace(/\*\*(.*?)\*\*/g, '<strong>$1</strong>')]: at each position a
    match is replaced and the scan goes on behind it; where nothing
    matches, the character is kept and the scan moves one on. *)
Fixpoint replace_bold (s : string) : string :=
  match s with
  | EmptyString => EmptyString
  | String c tl =>
      let keep := String c (replace_bold tl) in
      if Ascii.eqb c star then
        match tl with
        | String d body =>
            if Ascii.eqb d star then
              match close_bold replace_bold body "" with
              | Some replaced => replaced
              | None => keep
              end
            else keep
        | EmptyString => keep
        end
      else keep
  end.

Definition formatInsights (insights : string) : string :=
  replace_bold (replace_newlines insights).

End Widget.

(** ** The specification's vocabulary *)

Module Spec.
Import JS Bot.

(** The partial-year predicate: one hardcoded incomplete year. *)
Definition is_partial_year (y : Year) : bool := Year_eqb y FY26.

(** The note is appended: the answer ends with it. *)
Definition note_appended (answer : string) : bool :=
  ends_with PARTIAL_NOTE answer.

(** The views of the README's schema section. *)
Definition views : list string :=
  [ "v_year_totals"; "v_category_totals"; "v_year_yoy";
    "v_category_shares"; "v_line_items" ].

(** The answer has a 'Source: <view>' clause for some view. *)
Definition cites_a_view (answer : string) : bool :=
  existsb (fun v => contains ("Source: " ++ v) answer) views.

(** The view, with its year argument, an intent's figures come from. *)
Definition cited_view (i : Intent) : option string :=
  match i with
  | year_total y _ => Some ("v_year_totals(" ++ Year_str y ++ ")")
  | yoy_difference _ _ | yoy_all => Some "v_year_yoy"
  | category_rank y _ => Some ("v_category_totals(" ++ Year_str y ++ ")")
  | category_share y _ => Some ("v_category_shares(" ++ Year_str y ++ ")")
  | line_item_total _ _ _ => Some "v_line_items"
  | help _ | unlisted _ _ => None
  end.

(** Category names compared without regard to letter case, character by
    character: equal codes, or an upper-case letter against its lower-case
    form (32 apart). *)
Definition same_letter (a b : ascii) : bool :=
  let x := nat_of_ascii a in
  let y := nat_of_ascii b in
  (x =? y)%nat
  || ((65 <=? x)%nat && (x <=? 90)%nat && (y =? x + 32)%nat)
  || ((65 <=? y)%nat && (y <=? 90)%nat && (x =? y + 32)%nat).

Fixpoint eq_ignore_case (s t : string) : bool :=
  match s, t with
  | EmptyString, EmptyString => true
  | String a s', String b t' => same_letter a b && eq_ignore_case s' t'
  | _, _ => false
  end.

(** A digit string with thousands separators: a leading group of one to
    three digits, then groups of exactly three, each after a comma. *)
Definition is_digit (c : ascii) : bool :=
  let n := nat_of_ascii c in (48 <=? n)%nat && (n <=? 57)%nat.

Inductive thousands : list ascii -> Prop :=
| thousands_head (g : list ascii) :
    (1 <= List.length g <= 3)%nat -> forallb is_digit g = true ->
    thousands g
| thousands_group (front : list ascii) (a b c : ascii) :
    thousands front -> forallb is_digit [a; b; c] = true ->
    thousands (front ++ ","%char :: [a; b; c])%list.

Definition strip_commas (l : list ascii) : list ascii :=
  filter (fun c => negb (Ascii.eqb c ","%char)) l.

(** The natural number a string of decimal digits denotes. *)
Definition read_decimal (l : list ascii) : option N :=
  option_map N.of_uint (NilZero.uint_of_string (string_of_list_ascii l)).

Section Answers.
Variable pct : Type.

Definition has_year (y : Year) (rows : list YoYRow) : bool :=
  existsb (fun r => Year_eqb (yoy_fiscal_year r) y) rows.

Definition has_category (c : string) (rows : list (ShareRow pct)) : bool :=
  existsb (fun r => eq_ignore_case (sh_category r) c) rows.

(** The answer reports figures of a view; otherwise it is one of the
    plain messages (help text, not found, no data, not understood). *)
Definition reports_figures (i : Intent) (api : Backend pct) : bool :=
  match i with
  | year_total _ _ | yoy_all | line_item_total _ _ _ => true
  | yoy_difference year_from year_to =>
      match fetch_yoy api with
      | Ok rows => has_year year_to rows && has_year year_from rows
      | Throw _ => false
      end
  | category_rank year top_n =>
      match fetch_category api year (nullish top_n (Num 10)) with
      | Ok json =>
          match cj_data json with
          | Val (_ :: _) => true
          | _ => false
          end
      | Throw _ => false
      end
  | category_share year category =>
      match fetch_shares api year with
      | Ok json => has_category category (sj_data json)
      | Throw _ => false
      end
  | help _ | unlisted _ _ => false
  end.

Definition plain_message (i : Intent) : string :=
  match i with
  | yoy_difference _ _ => "I could not find the requested years."
  | category_rank year _ =>
      "No categories found for " ++ Year_str year ++ "."
  | category_share year category =>
      "No data for " ++ category ++ " in " ++ Year_str year ++ "."
  | help question => question
  | _ => "Sorry, I could not interpret that request."
  end.

(** The disclosure as the specification words it: the predicate of the
    queried year, and for the whole series some partial year in it. *)
Definition note_by_year (i : Intent) (api : Backend pct) : bool :=
  match i with
  | year_total y _ | category_rank y _ | category_share y _
  | line_item_total y _ _ => is_partial_year y
  | yoy_difference year_from year_to =>
      is_partial_year year_to || is_partial_year year_from
  | yoy_all =>
      match fetch_yoy api with
      | Ok rows => existsb (fun r => is_partial_year (yoy_fiscal_year r)) rows
      | Throw _ => false
      end
  | help _ | unlisted _ _ => false
  end.

(** The disclosure as the resolver decides it: only on answers that
    report figures; from the year of the intent for year_total,
    yoy_difference and category_share, from the years of the series for
    yoy_all, and from the [partial] flag of the response for
    category_rank and line_item_total. *)
Definition note_due (i : Intent) (api : Backend pct) : bool :=
  reports_figures i api &&
  match i with
  | year_total y _ | category_share y _ => is_partial_year y
  | yoy_difference year_from year_to =>
      is_partial_year year_to || is_partial_year year_from
  | yoy_all =>
      match fetch_yoy api with
      | Ok rows => existsb (fun r => is_partial_year (yoy_fiscal_year r)) rows
      | Throw _ => false
      end
  | category_rank year top_n =>
      match fetch_category api year (nullish top_n (Num 10)) with
      | Ok json => cj_partial json
      | Throw _ => false
      end
  | line_item_total year category line_item =>
      match fetch_line_item api year category line_item with
      | Ok json => li_partial json
      | Throw _ => false
      end
  | help _ | unlisted _ _ => false
  end.

End Answers.

Arguments has_category {pct} c rows.
Arguments reports_figures {pct} i api.
Arguments note_by_year {pct} i api.
Arguments note_due {pct} i api.

(** The message a thrown value carries, if it carries one. *)
Definition thrown_message (e : thrown) : option string :=
  match e with
  | ErrorInstance m => Some m
  | OtherValue m => m
  end.

(** The failure envelope {success:false, error, details} with status 500. *)
Definition failure (error details : string) : Api.Response :=
  {| Api.status := 500;
     Api.body :=
       Api.JObject [ ("success", Api.JBool false);
                     ("error", Api.JString error);
                     ("details", Api.JString details) ] |}.

(** A field of a JSON object. *)
Definition field (name : string) (j : Api.json) : option Api.json :=
  match j with
  | Api.JObject fields =>
      option_map snd
        (find (fun kv => String.eqb (fst kv) name) fields)
  | _ => None
  end.

(** The six budget endpoints. *)
Inductive endpoint : Type :=
| EYearTotals | EYoY | ECategory | EShares | ELineItem | ECategoryYoY.

Definition respond (ep : endpoint) (lib : Api.BudgetLib)
           (ps : Api.SearchParams) : Api.Response :=
  match ep with
  | EYearTotals => Api.year_totals.GET lib
  | EYoY => Api.yoy.GET lib
  | ECategory => Api.category.GET lib ps
  | EShares => Api.shares.GET lib ps
  | ELineItem => Api.line_item.GET lib ps
  | ECategoryYoY => Api.category_yoy.GET lib ps
  end.

Definition thrown_by {A : Type} (o : outcome A) : option thrown :=
  match o with
  | Ok _ => None
  | Throw e => Some e
  end.

Definition param (name : string) (ps : Api.SearchParams) (dflt : string)
  : string :=
  match Api.get name ps with
  | Some v => v
  | None => dflt
  end.

(** The value the endpoint's query operation throws on this request, if
    the endpoint calls it and it throws. *)
Definition query_failure (ep : endpoint) (lib : Api.BudgetLib)
           (ps : Api.SearchParams) : option thrown :=
  match ep with
  | EYearTotals => thrown_by (Api.getYearTotals lib)
  | EYoY => thrown_by (Api.getYoY lib)
  | ECategory =>
      thrown_by
        (Api.getCategoryRanking lib (param "year" ps "FY25")
           match Api.get "limit" ps with
           | Some l => Api.Number lib l
           | None => Num 10
           end)
  | EShares => thrown_by (Api.getCategoryShares lib (param "year" ps "FY25"))
  | ELineItem =>
      thrown_by
        (Api.getLineItemTotal lib (param "year" ps "FY24")
           (param "category" ps "ADMINISTRATION")
           (param "lineItem" ps "Payroll Taxes"))
  | ECategoryYoY =>
      match Api.get "category" ps with
      | None | Some "" => None
      | Some category =>
          thrown_by
            (Api.getCategoryYoY lib (param "year1" ps "FY24")
               (param "year2" ps "FY25") category)
      end
  end.

(** The [error] text of each endpoint's failure envelope. *)
Definition failure_text (ep : endpoint) : string :=
  match ep with
  | EYearTotals => "Failed to fetch year totals"
  | EYoY => "Failed to fetch year-over-year data"
  | ECategory => "Failed to fetch category rankings"
  | EShares => "Failed to fetch category shares"
  | ELineItem => "Failed to fetch line item total"
  | ECategoryYoY => "Failed to fetch category year-over-year data"
  end.

End Spec.

(** ** Vocabulary for the behaviour beyond the specification's sentences *)

Module Behaviour.
Import JS Bot Spec.

(** Reading a whole amount back from its currency format: the dollar sign,
    a minus sign if any, then the digits without their commas. *)
Definition parse_USD (s : string) : option Z :=
  match s with
  | String d rest =>
      if Ascii.eqb d "$" then
        match rest with
        | String m digits =>
            if Ascii.eqb m "-"
            then option_map (fun n => (- Z.of_N n)%Z)
                   (read_decimal
                      (strip_commas (list_ascii_of_string digits)))
            else option_map Z.of_N
                   (read_decimal (strip_commas (list_ascii_of_string rest)))
        | EmptyString => None
        end
      else None
  | EmptyString => None
  end.

(** A line of the year-over-year listing, by the sign of the change: the
    base year has no change; a change that is not negative is shown after
    a plus sign; a negative one after a minus sign, as the amount it
    falls by; a change that is not a number after a minus sign, as $0. *)
Definition change_line (r : YoYRow) : string :=
  let total := USD (Val (yoy_total r)) in
  let year := Year_str (yoy_fiscal_year r) in
  match yoy_change r with
  | Null | Undefined => year ++ ": base " ++ total
  | Val NaN => year ++ ": −$0 (total " ++ total ++ ")"
  | Val (Num c) =>
      if (0 <=? c)%Z
      then year ++ ": +" ++ USD (Val (Num c)) ++ " (total " ++ total ++ ")"
      else year ++ ": −" ++ USD (Val (Num (- c))) ++ " (total " ++ total
             ++ ")"
  end.

(** The request has a non-empty [category] parameter. *)
Definition category_given (ps : Api.SearchParams) : bool :=
  match Api.get "category" ps with
  | Some (String _ _) => true
  | Some EmptyString | None => false
  end.

Definition returned {A : Type} (o : outcome A) : option A :=
  match o with
  | Ok a => Some a
  | Throw _ => None
  end.

(** What the endpoint's query returns on this request, as the JSON the
    handler puts in the body, if the endpoint calls it and it returns. *)
Definition query_data (ep : endpoint) (lib : Api.BudgetLib)
           (ps : Api.SearchParams) : option Api.json :=
  match ep with
  | EYearTotals => returned (Api.getYearTotals lib)
  | EYoY => returned (Api.getYoY lib)
  | ECategory =>
      returned
        (Api.getCategoryRanking lib (param "year" ps "FY25")
           match Api.get "limit" ps with
           | Some l => Api.Number lib l
           | None => Num 10
           end)
  | EShares => returned (Api.getCategoryShares lib (param "year" ps "FY25"))
  | ELineItem =>
      option_map Api.JNumber
        (returned
           (Api.getLineItemTotal lib (param "year" ps "FY24")
              (param "category" ps "ADMINISTRATION")
              (param "lineItem" ps "Payroll Taxes")))
  | ECategoryYoY =>
      if category_given ps
      then returned
             (Api.getCategoryYoY lib (param "year1" ps "FY24")
                (param "year2" ps "FY25") (param "category" ps ""))
      else None
  end.

(** The field of the success envelope that carries the query's result. *)
Definition data_field (ep : endpoint) : string :=
  match ep with
  | ELineItem => "total"
  | _ => "data"
  end.

(** Which of the three controls of the widget the page shows. *)
Definition panel_visible (w : Widget.State) : bool := Widget.panel_open w.

Definition button_visible (w : Widget.State) : bool :=
  negb (String.eqb (Widget.toggle_display w) "none").

Definition minimized_visible (w : Widget.State) : bool :=
  Widget.minimized_show w.

Definition closed_state : Widget.State :=
  {| Widget.isOpen := false; Widget.isMinimized := false;
     Widget.panel_open := false; Widget.toggle_display := "flex";
     Widget.minimized_show := false |}.

Definition open_state : Widget.State :=
  {| Widget.isOpen := true; Widget.isMinimized := false;
     Widget.panel_open := true; Widget.toggle_display := "none";
     Widget.minimized_show := false |}.

Definition minimized_state : Widget.State :=
  {| Widget.isOpen := false; Widget.isMinimized := true;
     Widget.panel_open := false; Widget.toggle_display := "none";
     Widget.minimized_show := true |}.

(** No character of the string is [c]. *)
Fixpoint lacks (c : ascii) (s : string) : bool :=
  match s with
  | EmptyString => true
  | String d tl => negb (Ascii.eqb d c) && lacks c tl
  end.

(** The string starts with U+2028 or U+2029 (E2 80 A8, E2 80 A9). *)
Definition at_separator (s : string) : bool :=
  match s with
  | String c (String c1 (String c2 _)) =>
      Nat.eqb (nat_of_ascii c) 226 && Nat.eqb (nat_of_ascii c1) 128
      && (Nat.eqb (nat_of_ascii c2) 168 || Nat.eqb (nat_of_ascii c2) 169)
  | _ => false
  end.

(** Text a bold span can hold: no star, no carriage return, no U+2028 and
    no U+2029 anywhere in it (line feeds are allowed). *)
Fixpoint span_text (s : string) : bool :=
  match s with
  | EmptyString => true
  | String d tl =>
      negb (Ascii.eqb d Widget.star)
      && negb (Ascii.eqb d Widget.carriage_return)
      && negb (at_separator s)
      && span_text tl
  end.

End Behaviour.

(** ** The resolver in front of the routes *)

Module Wiring.
Import JS.

(** Text put in a query string as it is, and read back by
    [searchParams.get]: a plus sign comes back as a space.  The text of a
    number holds no other character that is read back differently; the
    year, the category and the line item go through [encodeURIComponent]
    and come back as they were. *)
Fixpoint in_query (s : string) : string :=
  match s with
  | EmptyString => EmptyString
  | String c tl =>
      String (if Ascii.eqb c "+" then " "%char else c) (in_query tl)
  end.

(** The backend the routes under src/app/api/budget make: each request of
    the resolver is answered by the handler of its path, with the query
    string the resolver builds, and the resolver parses the body whatever
    the status is.  [lib] is the query layer behind the handlers. *)
Definition served (P : Runtime.Platform number) (lib : Api.BudgetLib)
  : Runtime.Backend number :=
  {| Runtime.fetch_year_totals :=
       Ok (Runtime.parsed (Api.body (Api.year_totals.GET lib)));
     Runtime.fetch_yoy :=
       Ok (Runtime.parsed (Api.body (Api.yoy.GET lib)));
     Runtime.fetch_category := fun year limit =>
       Ok (Runtime.parsed
             (Api.body
                (Api.category.GET lib
                   [ ("year", Bot.Year_str year);
                     ("limit",
                       in_query (Runtime.Number_toString P limit)) ])));
     Runtime.fetch_shares := fun year =>
       Ok (Runtime.parsed
             (Api.body (Api.shares.GET lib [ ("year", Bot.Year_str year) ])));
     Runtime.fetch_line_item := fun year category line_item =>
       Ok (Runtime.parsed
             (Api.body
                (Api.line_item.GET lib
                   [ ("year", Bot.Year_str year);
                     ("category", category);
                     ("lineItem", line_item) ]))) |}.

(** The value the one request of an intent is rejected with, if the intent
    sends a request and it is rejected. *)
Definition rejection {num : Type} (P : Runtime.Platform num)
           (i : Runtime.Intent num) (api : Runtime.Backend num)
  : option thrown :=
  match i with
  | Runtime.year_total _ _ => Spec.thrown_by (Runtime.fetch_year_totals api)
  | Runtime.yoy_difference _ _ | Runtime.yoy_all =>
      Spec.thrown_by (Runtime.fetch_yoy api)
  | Runtime.category_rank y top_n =>
      Spec.thrown_by
        (Runtime.fetch_category api y (nullish top_n (Runtime.ten P)))
  | Runtime.category_share y _ => Spec.thrown_by (Runtime.fetch_shares api y)
  | Runtime.line_item_total y c li =>
      Spec.thrown_by (Runtime.fetch_line_item api y c li)
  | Runtime.help _ | Runtime.unlisted _ _ => None
  end.

(** A share row whose [category] is the string [name]. *)
Definition named {num : Type} (r : Runtime.value num) (name : string)
  : Prop :=
  Runtime.member "category" r = Runtime.VString name.

(** An element a callback can read a property of. *)
Definition readable {num : Type} (r : Runtime.value num) : bool :=
  negb (Runtime.is_nullish r).

End Wiring.

(** ** The annotated shapes as JSON

    The rows and bodies of [Bot], as the JSON values they are when the
    response has the shape the resolver's annotations declare. *)

Module Annotated.
Import JS.

Definition of_nullable (n : nullable number) : Runtime.value number :=
  match n with
  | Val x => Runtime.VNumber x
  | Null => Runtime.VNull
  | Undefined => Runtime.VUndefined
  end.

Definition of_year_total (r : Bot.YearTotalRow) : Runtime.value number :=
  Runtime.VObject
    [ ("fiscal_year", Runtime.VString (Bot.Year_str (Bot.yt_fiscal_year r)));
      ("total", Runtime.VNumber (Bot.yt_total r)) ].

Definition of_yoy (r : Bot.YoYRow) : Runtime.value number :=
  Runtime.VObject
    [ ("fiscal_year", Runtime.VString (Bot.Year_str (Bot.yoy_fiscal_year r)));
      ("total", Runtime.VNumber (Bot.yoy_total r));
      ("yoy_change", of_nullable (Bot.yoy_change r)) ].

Definition of_category (r : Bot.CategoryRow) : Runtime.value number :=
  Runtime.VObject
    [ ("category", Runtime.VString (Bot.cat_category r));
      ("total", Runtime.VNumber (Bot.cat_total r)) ].

Definition of_category_json (j : Bot.CategoryJson) : Runtime.value number :=
  Runtime.VObject
    [ ("data",
        match Bot.cj_data j with
        | Val rows => Runtime.VArray (map of_category rows)
        | Null => Runtime.VNull
        | Undefined => Runtime.VUndefined
        end);
      ("partial", Runtime.VBool (Bot.cj_partial j)) ].

Definition of_share (r : Bot.ShareRow number) : Runtime.value number :=
  Runtime.VObject
    [ ("category", Runtime.VString (Bot.sh_category r));
      ("total", Runtime.VNumber (Bot.sh_total r));
      ("pct_of_year", Runtime.VNumber (Bot.sh_pct_of_year r)) ].

Definition of_shares_json (j : Bot.SharesJson number)
  : Runtime.value number :=
  Runtime.VObject
    [ ("data", Runtime.VArray (map of_share (Bot.sj_data j)));
      ("partial", Runtime.VBool (Bot.sj_partial j)) ].

Definition of_line_item_json (j : Bot.LineItemJson) : Runtime.value number :=
  Runtime.VObject
    [ ("total", of_nullable (Bot.li_total j));
      ("partial", Runtime.VBool (Bot.li_partial j)) ].

Definition parsing {A : Type} (o : outcome A)
           (shape : A -> Runtime.value number)
  : outcome (Runtime.value number) :=
  x <- o ;; Ok (shape x).

Definition of_backend (api : Bot.Backend number) : Runtime.Backend number :=
  {| Runtime.fetch_year_totals :=
       parsing (Bot.fetch_year_totals api)
         (fun rows => Runtime.VArray (map of_year_total rows));
     Runtime.fetch_yoy :=
       parsing (Bot.fetch_yoy api)
         (fun rows => Runtime.VArray (map of_yoy rows));
     Runtime.fetch_category := fun year limit =>
       parsing (Bot.fetch_category api year limit) of_category_json;
     Runtime.fetch_shares := fun year =>
       parsing (Bot.fetch_shares api year) of_shares_json;
     Runtime.fetch_line_item := fun year category line_item =>
       parsing (Bot.fetch_line_item api year category line_item)
         of_line_item_json |}.

Definition of_intent (i : Bot.Intent) : Runtime.Intent number :=
  match i with
  | Bot.year_total y pd => Runtime.year_total y pd
  | Bot.yoy_difference a b => Runtime.yoy_difference a b
  | Bot.yoy_all => Runtime.yoy_all
  | Bot.category_rank y n => Runtime.category_rank y n
  | Bot.category_share y c => Runtime.category_share y c
  | Bot.line_item_total y c li => Runtime.line_item_total y c li
  | Bot.help q => Runtime.help q
  | Bot.unlisted tag outside => Runtime.unlisted tag outside
  end.

End Annotated.

(** ** Sample backends and query layers *)

(** A query layer whose every operation rejects with the same value. *)
Definition lib_throwing (e : JS.thrown) : Api.BudgetLib :=
  {| Api.getYearTotals := JS.Throw e;
     Api.getYoY := JS.Throw e;
     Api.getCategoryRanking := fun _ _ => JS.Throw e;
     Api.getCategoryShares := fun _ => JS.Throw e;
     Api.getLineItemTotal := fun _ _ _ => JS.Throw e;
     Api.getCategoryYoY := fun _ _ _ => JS.Throw e;
     Api.Number := fun _ => JS.NaN |}.

Definition failing_lib : Api.BudgetLib :=
  lib_throwing (JS.ErrorInstance "relation v_year_totals does not exist").

Definition plain_object_lib : Api.BudgetLib :=
  lib_throwing (JS.OtherValue (Some "connection refused")).

(** A backend whose every request is refused. *)
Definition offline (pct : Type) : Bot.Backend pct :=
  {| Bot.fetch_year_totals := JS.Throw (JS.ErrorInstance "fetch failed");
     Bot.fetch_yoy := JS.Throw (JS.ErrorInstance "fetch failed");
     Bot.fetch_category := fun _ _ => JS.Throw (JS.ErrorInstance "fetch failed");
     Bot.fetch_shares := fun _ => JS.Throw (JS.ErrorInstance "fetch failed");
     Bot.fetch_line_item := fun _ _ _ => JS.Throw (JS.ErrorInstance "fetch failed") |}.

(** The figures of tests/budget.spec.ts. *)
Record decimal : Type := { units : Z; tenths : Z }.

Definition decimal_str (d : decimal) : string :=
  JS.toString (JS.Num (units d)) ++ "." ++ JS.toString (JS.Num (tenths d)).

Definition budget_year_totals : list Bot.YearTotalRow :=
  [ {| Bot.yt_fiscal_year := Bot.FY24; Bot.yt_total := JS.Num 5391635 |};
    {| Bot.yt_fiscal_year := Bot.FY25; Bot.yt_total := JS.Num 6894068 |};
    {| Bot.yt_fiscal_year := Bot.FY26; Bot.yt_total := JS.Num 2721944 |} ].

Definition budget_yoy : list Bot.YoYRow :=
  [ {| Bot.yoy_fiscal_year := Bot.FY24; Bot.yoy_total := JS.Num 5391635;
       Bot.yoy_change := JS.Null |};
    {| Bot.yoy_fiscal_year := Bot.FY25; Bot.yoy_total := JS.Num 6894068;
       Bot.yoy_change := JS.Val (JS.Num 1502433) |};
    {| Bot.yoy_fiscal_year := Bot.FY26; Bot.yoy_total := JS.Num 2721944;
       Bot.yoy_change := JS.Val (JS.Num (-4172124)) |} ].

Definition budget_ranking : list Bot.CategoryRow :=
  [ {| Bot.cat_category := "TAXES"; Bot.cat_total := JS.Num 1481200 |};
    {| Bot.cat_category := "POLICE DEPARTMENT";
       Bot.cat_total := JS.Num 1249212 |} ].

Definition budget_shares : list (Bot.ShareRow decimal) :=
  [ {| Bot.sh_category := "TAXES"; Bot.sh_total := JS.Num 1481200;
       Bot.sh_pct_of_year := {| units := 21; tenths := 5 |} |};
    {| Bot.sh_category := "POLICE DEPARTMENT";
       Bot.sh_total := JS.Num 1249212;
       Bot.sh_pct_of_year := {| units := 18; tenths := 1 |} |} ].

(** A backend over those figures: the ranking keeps the first [limit]
    rows, the flags are those of the year. *)
Definition budget_backend : Bot.Backend decimal :=
  {| Bot.fetch_year_totals := JS.Ok budget_year_totals;
     Bot.fetch_yoy := JS.Ok budget_yoy;
     Bot.fetch_category := fun year limit =>
       JS.Ok {| Bot.cj_data :=
                  JS.Val match limit with
                         | JS.Num n => firstn (Z.to_nat n) budget_ranking
                         | JS.NaN => []
                         end;
                Bot.cj_partial := Bot.Year_eqb year Bot.FY26 |};
     Bot.fetch_shares := fun year =>
       JS.Ok {| Bot.sj_data := budget_shares;
                Bot.sj_partial := Bot.Year_eqb year Bot.FY26 |};
     Bot.fetch_line_item := fun year category line_item =>
       JS.Ok {| Bot.li_total :=
                  if String.eqb line_item "Payroll Taxes"
                  then JS.Val (JS.Num 20389) else JS.Val (JS.Num 0);
                Bot.li_partial := Bot.Year_eqb year Bot.FY26 |} |}.

(** The same backend before FY26 was loaded: the series stops at FY25. *)
Definition early_backend : Bot.Backend decimal :=
  {| Bot.fetch_year_totals := JS.Ok (firstn 2 budget_year_totals);
     Bot.fetch_yoy := JS.Ok (firstn 2 budget_yoy);
     Bot.fetch_category := Bot.fetch_category budget_backend;
     Bot.fetch_shares := Bot.fetch_shares budget_backend;
     Bot.fetch_line_item := Bot.fetch_line_item budget_backend |}.

(** A query layer that answers the ranking with the top two of FY25. *)
Definition ranking_json : Api.json :=
  Api.JArray
    [ Api.JObject [ ("category", Api.JString "TAXES");
                    ("total", Api.JNumber (JS.Num 1481200)) ];
      Api.JObject [ ("category", Api.JString "POLICE DEPARTMENT");
                    ("total", Api.JNumber (JS.Num 1249212)) ] ].

Definition budget_lib : Api.BudgetLib :=
  {| Api.getYearTotals := JS.Ok (Api.JArray []);
     Api.getYoY := JS.Ok (Api.JArray []);
     Api.getCategoryRanking := fun _ _ => JS.Ok ranking_json;
     Api.getCategoryShares := fun _ => JS.Ok (Api.JArray []);
     Api.getLineItemTotal := fun _ _ _ => JS.Ok (JS.Num 20389);
     Api.getCategoryYoY := fun _ _ _ => JS.Ok Api.JNull;
     Api.Number := fun _ => JS.NaN |}.

(** A conversation in the page: a question, its answer, a second
    question and the element of its answer. *)
Definition sample_messages : list Widget.MessageDiv :=
  [ {| Widget.element := 1; Widget.is_user := true;
       Widget.bubble_text := "What is the total budget for FY25?" |};
    {| Widget.element := 2; Widget.is_user := false;
       Widget.bubble_text := "Total FY25 budget: $6,894,068." |};
    {| Widget.element := 3; Widget.is_user := true;
       Widget.bubble_text := "And for FY26?" |};
    {| Widget.element := 4; Widget.is_user := false;
       Widget.bubble_text := "Total FY26 budget: $2,721,944." |} ].

(** A platform for worked examples: whole numbers and NaN, upper-casing
    of the letters a to z. *)
Definition parse_number (s : string) : JS.number :=
  match NilZero.int_of_string s with
  | Some d => JS.Num (Z.of_int d)
  | None => JS.NaN
  end.

Definition whole_numbers : Runtime.Platform JS.number :=
  {| Runtime.isNaN := fun n =>
       match n with JS.NaN => true | JS.Num _ => false end;
     Runtime.toLocaleString_en_US := fun n =>
       match n with JS.Num z => JS.toLocaleString z | JS.NaN => "NaN" end;
     Runtime.Number_toString := JS.toString;
     Runtime.StringToNumber := parse_number;
     Runtime.subtract := JS.sub;
     Runtime.Math_abs := JS.abs;
     Runtime.ge_zero := JS.ge0;
     Runtime.nonzero := fun n =>
       match n with JS.Num z => negb (Z.eqb z 0) | JS.NaN => false end;
     Runtime.zero := JS.Num 0;
     Runtime.one := JS.Num 1;
     Runtime.nan := JS.NaN;
     Runtime.ten := JS.Num 10;
     Runtime.String_toUpperCase := JS.toUpperCase |}.

Definition row_json (fields : list (string * Api.json)) : Api.json :=
  Api.JObject fields.

Definition year_totals_json : Api.json :=
  Api.JArray
    [ row_json [ ("fiscal_year", Api.JString "FY24");
                 ("total", Api.JNumber (JS.Num 5391635)) ];
      row_json [ ("fiscal_year", Api.JString "FY25");
                 ("total", Api.JNumber (JS.Num 6894068)) ];
      row_json [ ("fiscal_year", Api.JString "FY26");
                 ("total", Api.JNumber (JS.Num 2721944)) ] ].

Definition shares_json : Api.json :=
  Api.JArray
    [ row_json [ ("category", Api.JString "TAXES");
                 ("total", Api.JNumber (JS.Num 1481200));
                 ("pct_of_year", Api.JNumber (JS.Num 21)) ];
      row_json [ ("category", Api.JString "POLICE DEPARTMENT");
                 ("total", Api.JNumber (JS.Num 1249212));
                 ("pct_of_year", Api.JNumber (JS.Num 18)) ] ].

(** A query layer over the figures of the tests; the ranking keeps the
    first [limit] rows. *)
Definition figures_lib : Api.BudgetLib :=
  {| Api.getYearTotals := JS.Ok year_totals_json;
     Api.getYoY := JS.Ok (Api.JArray []);
     Api.getCategoryRanking := fun _ limit =>
       JS.Ok match limit, ranking_json with
             | JS.Num n, Api.JArray rows =>
                 Api.JArray (firstn (Z.to_nat n) rows)
             | _, _ => Api.JArray []
             end;
     Api.getCategoryShares := fun _ => JS.Ok shares_json;
     Api.getLineItemTotal := fun _ _ _ => JS.Ok (JS.Num 20389);
     Api.getCategoryYoY := fun _ _ _ => JS.Ok Api.JNull;
     Api.Number := parse_number |}.

(** A query layer whose line-item total is not a number. *)
Definition nan_lib : Api.BudgetLib :=
  {| Api.getYearTotals := JS.Ok (Api.JArray []);
     Api.getYoY := JS.Ok (Api.JArray []);
     Api.getCategoryRanking := fun _ _ => JS.Ok (Api.JArray []);
     Api.getCategoryShares := fun _ => JS.Ok (Api.JArray []);
     Api.getLineItemTotal := fun _ _ _ => JS.Ok JS.NaN;
     Api.getCategoryYoY := fun _ _ _ => JS.Ok Api.JNull;
     Api.Number := parse_number |}.

(** A backend that answers year-totals and yoy with the rows themselves,
    as the annotations of the resolver have it. *)
Definition bare_rows (P : Runtime.Platform JS.number) (lib : Api.BudgetLib)
  : Runtime.Backend JS.number :=
  {| Runtime.fetch_year_totals :=
       JS.bind (Api.getYearTotals lib)
         (fun data => JS.Ok (Runtime.parsed (Api.serialise data)));
     Runtime.fetch_yoy :=
       JS.bind (Api.getYoY lib)
         (fun data => JS.Ok (Runtime.parsed (Api.serialise data)));
     Runtime.fetch_category := Runtime.fetch_category (Wiring.served P lib);
     Runtime.fetch_shares := Runtime.fetch_shares (Wiring.served P lib);
     Runtime.fetch_line_item :=
       Runtime.fetch_line_item (Wiring.served P lib) |}.

(** * Properties *)

Import JS Bot Spec.

(** ** Strings *)

Lemma append_assoc (s t u : string) : (s ++ t) ++ u = s ++ t ++ u.
Proof.
  induction s as [|c s IH]; simpl; [reflexivity | now rewrite IH].
Qed.

Lemma append_nil_r (s : string) : s ++ "" = s.
Proof.
  induction s as [|c s IH]; simpl; [reflexivity | now rewrite IH].
Qed.

Lemma length_append (s t : string) :
  String.length (s ++ t) = (String.length s + String.length t)%nat.
Proof.
  induction s as [|c s IH]; simpl; [reflexivity | now rewrite IH].
Qed.

Lemma contains_cons (n : string) (c : ascii) (s : string) :
  contains n s = true -> contains n (String c s) = true.
Proof.
  intros H. simpl. rewrite H. apply orb_true_r.
Qed.

Lemma contains_append_r (n a b : string) :
  contains n b = true -> contains n (a ++ b) = true.
Proof.
  intros H. induction a as [|c a IH]; simpl; [exact H |].
  rewrite IH. apply orb_true_r.
Qed.

Lemma ends_with_cons (n : string) (c : ascii) (s : string) :
  ends_with n s = true -> ends_with n (String c s) = true.
Proof.
  intros H. simpl. rewrite H. apply orb_true_r.
Qed.

Lemma ends_with_skip (n a b : string) :
  ends_with n b = true -> ends_with n (a ++ b) = true.
Proof.
  intros H. induction a as [|c a IH]; [exact H |].
  now apply ends_with_cons.
Qed.

Lemma last2_cons (c : ascii) (r : string) :
  (2 <= String.length r)%nat -> last2 (String c r) = last2 r.
Proof.
  destruct r as [|a [|b r]]; simpl; intros H; try lia; reflexivity.
Qed.

Lemma last2_append (s t : string) :
  (2 <= String.length t)%nat -> last2 (s ++ t) = last2 t.
Proof.
  intros H. induction s as [|c s IH]; [reflexivity |].
  change (String c s ++ t) with (String c (s ++ t)).
  rewrite last2_cons; [exact IH |].
  rewrite length_append. lia.
Qed.

Lemma ends_with_last2 (n s : string) :
  (2 <= String.length n)%nat -> ends_with n s = true -> last2 s = last2 n.
Proof.
  intros Hn. induction s as [|c s IH]; simpl ends_with; intros H.
  - rewrite orb_false_r in H. apply String.eqb_eq in H. now subst.
  - apply orb_true_iff in H. destruct H as [H|H].
    + apply String.eqb_eq in H. now rewrite H.
    + assert (Hs : (2 <= String.length s)%nat).
      { clear IH. revert H. destruct s as [|a [|b s]]; simpl; try lia.
        - rewrite orb_false_r. intros E. apply String.eqb_eq in E.
          subst. simpl in Hn. lia.
        - rewrite !orb_false_r. intros E. apply orb_true_iff in E.
          destruct E as [E|E]; apply String.eqb_eq in E; subst;
            simpl in Hn; lia. }
      rewrite last2_cons by exact Hs. now apply IH.
Qed.

Lemma not_the_note (s : string) :
  last2 s <> "l." -> note_appended s = false.
Proof.
  intros H. unfold note_appended.
  destruct (ends_with PARTIAL_NOTE s) eqn:E; [|reflexivity].
  apply ends_with_last2 in E; [|simpl; lia]. now elim H.
Qed.

Lemma find_existsb {A : Type} (f : A -> bool) (l : list A) :
  existsb f l = match find f l with Some _ => true | None => false end.
Proof.
  induction l as [|x l IH]; simpl; [reflexivity |].
  destruct (f x); [reflexivity | exact IH].
Qed.

(** ** Tactics for answers built by concatenation *)

Ltac flatten :=
  repeat first [ progress cbn [append] | rewrite append_assoc ].

Ltac find_clause :=
  flatten;
  repeat first
    [ solve [vm_compute; reflexivity]
    | match goal with
      | |- contains _ (_ ++ _) = true => apply contains_append_r
      | |- contains _ (String _ _) = true => apply contains_cons
      end ].

Ltac run_resolver H :=
  unfold handleIntent in H;
  match type of H with
  | context [bind ?m _] =>
      let E := fresh "Efetch" in
      let r := fresh "res" in
      destruct m as [r|] eqn:E; unfold bind in H; [|discriminate H]
  | _ => idtac
  end.

Ltac measure :=
  repeat first [ rewrite length_append | progress cbn [String.length] ]; lia.

Ltac no_note :=
  apply not_the_note; flatten;
  repeat first [ rewrite last2_cons by measure
               | rewrite last2_append by measure ];
  vm_compute; discriminate.

Ltac has_note :=
  solve
    [ unfold note_appended; flatten;
      repeat first
        [ solve [vm_compute; reflexivity]
        | match goal with
          | |- ends_with _ (_ ++ _) = true => apply ends_with_skip
          | |- ends_with _ (String _ _) = true => apply ends_with_cons
          end ] ].

(** ** C10: the default branch *)

(** C10. For any intent whose action tag is not one of the seven tags of the
    [Intent] union, [handleIntent] returns (it does not throw) the fixed
    string 'Sorry, I could not interpret that request.', whatever the
    backend does. *)
Theorem handleIntent_default :
  forall (pct : Type) (pct_str : pct -> string) (i : Intent)
         (api : Backend pct),
    known_action (action i) = false ->
    handleIntent pct_str i api
    = Ok "Sorry, I could not interpret that request.".
Proof.
  intros pct pct_str i api H.
  destruct i; simpl in H; try discriminate H.
  reflexivity.
Qed.

Lemma handleIntent_default_witness :
  known_action (action (unlisted "forecast" eq_refl)) = false /\
  handleIntent (fun z : Z => toString (Num z))
    (unlisted "forecast" eq_refl) (offline Z)
  = Ok "Sorry, I could not interpret that request.".
Proof.
  split; [reflexivity |].
  apply (handleIntent_default Z (fun z => toString (Num z))
           (unlisted "forecast" eq_refl) (offline Z)).
  reflexivity.
Defined.

(** ** C8: the category year-over-year endpoint without a category *)

(** C8. A request to the category year-over-year endpoint that has no
    [category] parameter is answered, whatever the query layer would do,
    with status 400 and the body {success:false, error:'Category parameter
    is required'}. *)
Theorem category_yoy_missing_category :
  forall (lib : Api.BudgetLib) (ps : Api.SearchParams),
    Api.get "category" ps = None ->
    Api.category_yoy.GET lib ps
    = {| Api.status := 400;
         Api.body :=
           Api.JObject [ ("success", Api.JBool false);
                         ("error",
                           Api.JString "Category parameter is required") ] |}.
Proof.
  intros lib ps H. unfold Api.category_yoy.GET. rewrite H. reflexivity.
Qed.

Lemma category_yoy_missing_category_witness :
  Api.get "category" [("year1", "FY24"); ("year2", "FY26")] = None /\
  Api.category_yoy.GET failing_lib [("year1", "FY24"); ("year2", "FY26")]
  = {| Api.status := 400;
       Api.body :=
         Api.JObject [ ("success", Api.JBool false);
                       ("error",
                         Api.JString "Category parameter is required") ] |}.
Proof.
  split; [reflexivity |].
  apply (category_yoy_missing_category failing_lib
           [("year1", "FY24"); ("year2", "FY26")]).
  reflexivity.
Defined.

(** ** C9: internal failures *)

(** C9, as stated, fails: a query that rejects with a value that is not an
    [Error] instance, here a plain object whose message is 'connection
    refused', is answered with details 'Unknown error', not with that
    message. *)
Lemma details_not_always_the_message :
  query_failure EYearTotals plain_object_lib []
  = Some (OtherValue (Some "connection refused")) /\
  thrown_message (OtherValue (Some "connection refused"))
  = Some "connection refused" /\
  ~ (exists error : string,
        respond EYearTotals plain_object_lib []
        = failure error "connection refused").
Proof.
  split; [reflexivity | split; [reflexivity |]].
  intros [error H]. discriminate H.
Qed.

(** C9, amended. Whenever the query operation of a budget endpoint throws,
    the handler answers status 500 with exactly {success:false, error,
    details}: [error] is the endpoint's fixed text, [details] is the
    message of the thrown value when it is an [Error] instance and
    'Unknown error' otherwise. *)
Theorem internal_failure_is_500 :
  forall (ep : endpoint) (lib : Api.BudgetLib) (ps : Api.SearchParams)
         (e : thrown),
    query_failure ep lib ps = Some e ->
    respond ep lib ps
    = failure (failure_text ep)
        match e with
        | ErrorInstance message => message
        | OtherValue _ => "Unknown error"
        end.
Proof.
  intros ep lib ps e H.
  destruct ep; simpl in H; unfold respond, param in *.
  - unfold Api.year_totals.GET.
    destruct (Api.getYearTotals lib); inversion H; subst; now destruct e.
  - unfold Api.yoy.GET.
    destruct (Api.getYoY lib); inversion H; subst; now destruct e.
  - unfold Api.category.GET, Api.or_default.
    destruct (Api.getCategoryRanking lib _ _); inversion H; subst;
      now destruct e.
  - unfold Api.shares.GET, Api.or_default.
    destruct (Api.getCategoryShares lib _); inversion H; subst;
      now destruct e.
  - unfold Api.line_item.GET, Api.or_default.
    destruct (Api.getLineItemTotal lib _ _ _); inversion H; subst;
      now destruct e.
  - unfold Api.category_yoy.GET, Api.or_default.
    destruct (Api.get "category" ps) as [c|]; [|discriminate H].
    destruct c as [|a c]; [discriminate H |].
    simpl String.eqb.
    destruct (Api.getCategoryYoY lib _ _ _); inversion H; subst;
      now destruct e.
Qed.

Lemma internal_failure_is_500_witness :
  query_failure ECategoryYoY failing_lib [("category", "TAXES")]
  = Some (ErrorInstance "relation v_year_totals does not exist") /\
  respond ECategoryYoY failing_lib [("category", "TAXES")]
  = failure "Failed to fetch category year-over-year data"
      "relation v_year_totals does not exist".
Proof.
  split; [reflexivity |].
  apply (internal_failure_is_500 ECategoryYoY failing_lib
           [("category", "TAXES")]
           (ErrorInstance "relation v_year_totals does not exist")).
  reflexivity.
Defined.

(** ** Grouping digits in threes *)

Lemma group_rev_full (l : list ascii) :
  l <> [] -> group_rev 3 l = comma :: group_rev 0 l.
Proof.
  destruct l as [|d tl]; [congruence | reflexivity].
Qed.

Lemma group3_short (ds : list ascii) :
  (List.length ds <= 3)%nat -> group3 ds = ds.
Proof.
  intros H. unfold group3.
  assert (E : group_rev 0 (rev ds) = rev ds).
  { rewrite <- length_rev in H.
    destruct (rev ds) as [|a [|b [|c [|d l]]]]; simpl in *; try reflexivity.
    lia. }
  rewrite E. apply rev_involutive.
Qed.

Lemma group3_step (front : list ascii) (a b c : ascii) :
  front <> [] ->
  group3 (front ++ [a; b; c])%list
  = (group3 front ++ comma :: [a; b; c])%list.
Proof.
  intros H. unfold group3.
  rewrite rev_app_distr. simpl rev. simpl app.
  change (group_rev 0 (c :: b :: a :: rev front))
    with (c :: b :: a :: group_rev 3 (rev front)).
  rewrite group_rev_full.
  - simpl rev. rewrite <- !app_assoc. reflexivity.
  - intros E. apply H. rewrite <- (rev_involutive front), E. reflexivity.
Qed.

Lemma split_last_three (ds : list ascii) :
  (3 < List.length ds)%nat ->
  exists front a b c, ds = (front ++ [a; b; c])%list /\ front <> [].
Proof.
  intros H. rewrite <- (rev_involutive ds) in *.
  rewrite length_rev in H.
  destruct (rev ds) as [|c [|b [|a [|d r]]]]; simpl in H; try lia.
  exists (rev (d :: r)), a, b, c. split.
  - simpl. rewrite <- !app_assoc. reflexivity.
  - simpl. now destruct (rev r).
Qed.

Lemma is_digit_not_comma (c : ascii) :
  is_digit c = true -> negb (Ascii.eqb c ","%char) = true.
Proof.
  intros H. destruct (Ascii.eqb_spec c ","%char) as [->|]; [|reflexivity].
  discriminate H.
Qed.

Lemma strip_commas_digits (ds : list ascii) :
  forallb is_digit ds = true -> strip_commas ds = ds.
Proof.
  induction ds as [|d ds IH]; simpl; intros H; [reflexivity |].
  apply andb_true_iff in H. destruct H as [Hd Hds].
  rewrite (is_digit_not_comma d Hd). now rewrite IH.
Qed.

(** Grouping the digits of a number gives groups of three behind a leading
    group, and taking the commas out gives the digits back. *)
Lemma group3_thousands (n : nat) :
  forall ds : list ascii,
    (List.length ds <= n)%nat -> ds <> [] -> forallb is_digit ds = true ->
    thousands (group3 ds) /\ strip_commas (group3 ds) = ds.
Proof.
  induction n as [|n IH]; intros ds Hlen Hne Hdig.
  - destruct ds; [congruence | simpl in Hlen; lia].
  - destruct (Nat.leb_spec (List.length ds) 3) as [Hs|Hl].
    + rewrite group3_short by exact Hs. split.
      * apply thousands_head; [|exact Hdig].
        destruct ds; [congruence | simpl in *; lia].
      * now apply strip_commas_digits.
    + destruct (split_last_three ds Hl) as (front & a & b & c & -> & Hf).
      rewrite forallb_app in Hdig. apply andb_true_iff in Hdig.
      destruct Hdig as [Hfront Habc].
      rewrite length_app in Hlen. simpl in Hlen.
      destruct (IH front ltac:(lia) Hf Hfront) as [Hth Hstrip].
      rewrite group3_step by exact Hf. split.
      * now apply thousands_group.
      * unfold strip_commas in *. rewrite filter_app, Hstrip.
        f_equal. change (filter _ (comma :: [a; b; c]))
          with (strip_commas [a; b; c]).
        now apply strip_commas_digits.
Qed.

Lemma string_of_uint_digits (d : Decimal.uint) :
  forallb is_digit (list_ascii_of_string (NilEmpty.string_of_uint d)) = true.
Proof.
  induction d; simpl; try exact IHd; reflexivity.
Qed.

Lemma digits_are_digits (n : N) : forallb is_digit (digits n) = true.
Proof.
  unfold digits, NilZero.string_of_uint.
  destruct (N.to_uint n); try apply string_of_uint_digits. reflexivity.
Qed.

Lemma to_uint_nonnil (n : N) : N.to_uint n <> Decimal.Nil.
Proof.
  destruct n; simpl; [discriminate | apply Unsigned.to_uint_nonnil].
Qed.

Lemma digits_nonempty (n : N) : digits n <> [].
Proof.
  unfold digits, NilZero.string_of_uint.
  pose proof (to_uint_nonnil n) as H.
  destruct (N.to_uint n); simpl; congruence.
Qed.

Lemma read_digits (n : N) : read_decimal (digits n) = Some n.
Proof.
  unfold read_decimal, digits.
  rewrite string_of_list_ascii_of_string.
  rewrite NilZero.usu by apply to_uint_nonnil.
  simpl. now rewrite DecimalN.Unsigned.of_to.
Qed.

(** ** Letter case, for the resolver read under its annotations *)

Lemma ascii_eqb_nat (a b : ascii) :
  Ascii.eqb a b = (nat_of_ascii a =? nat_of_ascii b)%nat.
Proof.
  destruct (Ascii.eqb_spec a b) as [->|Hne].
  - now rewrite Nat.eqb_refl.
  - symmetry. apply Nat.eqb_neq. intros E. apply Hne.
    rewrite <- (ascii_nat_embedding a), <- (ascii_nat_embedding b).
    now rewrite E.
Qed.

Lemma nat_of_upper_ascii (c : ascii) :
  nat_of_ascii (upper_ascii c)
  = if (97 <=? nat_of_ascii c)%nat && (nat_of_ascii c <=? 122)%nat
    then (nat_of_ascii c - 32)%nat else nat_of_ascii c.
Proof.
  unfold upper_ascii.
  destruct ((97 <=? nat_of_ascii c)%nat && (nat_of_ascii c <=? 122)%nat);
    [|reflexivity].
  apply nat_ascii_embedding.
  pose proof (nat_ascii_bounded c). lia.
Qed.

Lemma upper_ascii_same_letter (a b : ascii) :
  Ascii.eqb (upper_ascii a) (upper_ascii b) = same_letter a b.
Proof.
  rewrite ascii_eqb_nat, !nat_of_upper_ascii. unfold same_letter.
  generalize (nat_of_ascii a) (nat_of_ascii b). intros x y.
  repeat match goal with
         | |- context [(?n <=? ?m)%nat] => destruct (Nat.leb_spec n m)
         | |- context [(?n =? ?m)%nat] => destruct (Nat.eqb_spec n m)
         end; simpl in *; try reflexivity; lia.
Qed.

Lemma toUpperCase_eq_ignore_case (s t : string) :
  String.eqb (toUpperCase s) (toUpperCase t) = eq_ignore_case s t.
Proof.
  revert t. induction s as [|a s IH]; intros [|b t]; simpl; try reflexivity.
  now rewrite upper_ascii_same_letter, IH.
Qed.

Lemma find_ext {A : Type} (f g : A -> bool) (l : list A) :
  (forall x, f x = g x) -> find f l = find g l.
Proof.
  intros H. induction l as [|x l IH]; simpl; [reflexivity |].
  now rewrite H, IH.
Qed.

Lemma find_share {pct : Type} (c : string) (rows : list (ShareRow pct)) :
  find (fun r => String.eqb (toUpperCase (sh_category r)) (toUpperCase c))
    rows
  = find (fun r => eq_ignore_case (sh_category r) c) rows.
Proof.
  apply find_ext. intros r. apply toUpperCase_eq_ignore_case.
Qed.

(** ** C1: the source clause *)




(** ** C2: the partial-data note *)




(** ** The figures of the test suite, end to end *)

Example toLocaleString_figures :
  toLocaleString 5391635 = "5,391,635" /\
  toLocaleString (-4172124) = "-4,172,124" /\
  toLocaleString 0 = "0" /\ toLocaleString 999 = "999" /\
  toLocaleString 1000 = "1,000".
Proof.
  repeat split.
Qed.

Example yoy_all_figures :
  handleIntent decimal_str yoy_all budget_backend
  = Ok ("Year-over-year changes:" ++ nl
          ++ "- FY24: base $5,391,635" ++ nl
          ++ "- FY25: +$1,502,433 (total $6,894,068)" ++ nl
          ++ "- FY26: −$4,172,124 (total $2,721,944)" ++ nl
          ++ "Source: v_year_yoy." ++ nl ++ "Note: FY26 data is partial.").
Proof.
  reflexivity.
Qed.

Example answers_without_the_year :
  handleIntent decimal_str (yoy_difference FY24 FY26) early_backend
  = Ok "I could not find the requested years." /\
  handleIntent decimal_str (year_total FY26 Undefined) early_backend
  = Ok ("Total FY26 budget: $0. Source: v_year_totals(FY26). "
          ++ "Note: FY26 data is partial.").
Proof.
  split; reflexivity.
Qed.

(** The year-totals handler wraps the rows of the query in an envelope;
    the rows are its [data] field. *)
Example year_totals_envelope (lib : Api.BudgetLib) (data : Api.json) :
  Api.getYearTotals lib = Ok data ->
  Api.status (Api.year_totals.GET lib) = 200 /\
  field "success" (Api.body (Api.year_totals.GET lib))
  = Some (Api.JBool true) /\
  field "data" (Api.body (Api.year_totals.GET lib))
  = Some (Api.serialise data).
Proof.
  intros H. unfold Api.year_totals.GET. rewrite H. repeat split.
Qed.

Example category_yoy_empty_category :
  Api.status (Api.category_yoy.GET failing_lib [("category", "")]) = 400.
Proof.
  reflexivity.
Qed.

(** * Further behaviour of the resolver and the endpoints *)

Import Behaviour.

(** ** Reading the currency format back *)

Lemma thousands_chars (l : list ascii) :
  thousands l ->
  forallb (fun c => is_digit c || Ascii.eqb c comma) l = true.
Proof.
  induction 1 as [g _ Hg|front a b c _ IH Habc].
  - apply forallb_forall. intros x Hx.
    rewrite forallb_forall in Hg. now rewrite (Hg x Hx).
  - rewrite forallb_app, IH. simpl in *.
    destruct (is_digit a), (is_digit b), (is_digit c);
      try discriminate Habc; reflexivity.
Qed.

(** ** Reversing a year-over-year difference *)

(** X4. When both years have a row with whole totals, asking the
    difference in the other direction reports the negated delta with the
    two totals swapped; the note is the same in both directions. *)
Theorem yoy_difference_reversed :
  forall (pct : Type) (pct_str : pct -> string) (y1 y2 : Year)
         (api : Backend pct) (rows : list YoYRow) (r1 r2 : YoYRow)
         (a b : Z),
    fetch_yoy api = Ok rows ->
    find (fun r => Year_eqb (yoy_fiscal_year r) y1) rows = Some r1 ->
    find (fun r => Year_eqb (yoy_fiscal_year r) y2) rows = Some r2 ->
    yoy_total r1 = Num a -> yoy_total r2 = Num b ->
    let note :=
      if is_partial_year y1 || is_partial_year y2
      then " " ++ PARTIAL_NOTE else "" in
    handleIntent pct_str (yoy_difference y1 y2) api
    = Ok ("Change from " ++ Year_str y1 ++ " to " ++ Year_str y2 ++ ": "
            ++ USD (Val (Num (b - a))) ++ " (" ++ USD (Val (Num a)) ++ " → "
            ++ USD (Val (Num b)) ++ "). Source: v_year_yoy." ++ note) /\
    handleIntent pct_str (yoy_difference y2 y1) api
    = Ok ("Change from " ++ Year_str y2 ++ " to " ++ Year_str y1 ++ ": "
            ++ USD (Val (Num (- (b - a)))) ++ " (" ++ USD (Val (Num b))
            ++ " → " ++ USD (Val (Num a)) ++ "). Source: v_year_yoy."
            ++ note).
Proof.
  intros pct pct_str y1 y2 api rows r1 r2 a b Hfetch H1 H2 Ha Hb note.
  subst note. unfold handleIntent, is_partial_year.
  rewrite Hfetch. unfold bind. rewrite H1, H2, Ha, Hb.
  unfold sub. replace (a - b)%Z with (- (b - a))%Z by lia.
  rewrite (orb_comm (Year_eqb y2 FY26)).
  destruct (Year_eqb y1 FY26 || Year_eqb y2 FY26); split;
    now rewrite ?append_assoc.
Qed.

Lemma yoy_difference_reversed_witness :
  handleIntent decimal_str (yoy_difference FY25 FY26) budget_backend
  = Ok ("Change from FY25 to FY26: $-4,172,124 ($6,894,068 → $2,721,944)."
          ++ " Source: v_year_yoy. Note: FY26 data is partial.") /\
  handleIntent decimal_str (yoy_difference FY26 FY25) budget_backend
  = Ok ("Change from FY26 to FY25: $4,172,124 ($2,721,944 → $6,894,068)."
          ++ " Source: v_year_yoy. Note: FY26 data is partial.").
Proof.
  apply (yoy_difference_reversed decimal decimal_str FY25 FY26
           budget_backend budget_yoy
           {| yoy_fiscal_year := FY25; yoy_total := Num 6894068;
              yoy_change := Val (Num 1502433) |}
           {| yoy_fiscal_year := FY26; yoy_total := Num 2721944;
              yoy_change := Val (Num (-4172124)) |}
           6894068%Z 2721944%Z); reflexivity.
Defined.

(** ** The envelopes of the endpoints *)

Ltac run_endpoint :=
  unfold respond, query_data, query_failure, returned, thrown_by, param,
    category_given, Api.year_totals.GET, Api.yoy.GET, Api.category.GET,
    Api.shares.GET, Api.line_item.GET, Api.category_yoy.GET,
    Api.or_default, Api.try_catch, bind.

(** X5. Whatever the query layer does and whatever the parameters are,
    every budget endpoint answers with status 200, 400 or 500, and the
    [success] field of the body is true exactly when the status is 200. *)
Theorem status_agrees_with_success :
  forall (ep : endpoint) (lib : Api.BudgetLib) (ps : Api.SearchParams),
    (Api.status (respond ep lib ps) = 200
     \/ Api.status (respond ep lib ps) = 400
     \/ Api.status (respond ep lib ps) = 500) /\
    field "success" (Api.body (respond ep lib ps))
    = Some (Api.JBool (Nat.eqb (Api.status (respond ep lib ps)) 200)).
Proof.
  intros ep lib ps. destruct ep; run_endpoint.
  - destruct (Api.getYearTotals lib); simpl; auto.
  - destruct (Api.getYoY lib); simpl; auto.
  - destruct (Api.getCategoryRanking lib _ _); simpl; auto.
  - destruct (Api.getCategoryShares lib _); simpl; auto.
  - destruct (Api.getLineItemTotal lib _ _ _); simpl; auto.
  - destruct (Api.get "category" ps) as [[|a c]|]; simpl; auto.
    destruct (Api.getCategoryYoY lib _ _ _); simpl; auto.
Qed.

(** X6. A budget endpoint answers 400 in one case only: the category
    year-over-year endpoint, when the [category] parameter is missing or
    empty. *)
Theorem bad_request_only_without_category :
  forall (ep : endpoint) (lib : Api.BudgetLib) (ps : Api.SearchParams),
    Api.status (respond ep lib ps) = 400
    <-> ep = ECategoryYoY /\ category_given ps = false.
Proof.
  intros ep lib ps. destruct ep; run_endpoint.
  - destruct (Api.getYearTotals lib); simpl; split;
      [discriminate | intros [H _]; discriminate H
      | discriminate | intros [H _]; discriminate H].
  - destruct (Api.getYoY lib); simpl; split;
      [discriminate | intros [H _]; discriminate H
      | discriminate | intros [H _]; discriminate H].
  - destruct (Api.getCategoryRanking lib _ _); simpl; split;
      [discriminate | intros [H _]; discriminate H
      | discriminate | intros [H _]; discriminate H].
  - destruct (Api.getCategoryShares lib _); simpl; split;
      [discriminate | intros [H _]; discriminate H
      | discriminate | intros [H _]; discriminate H].
  - destruct (Api.getLineItemTotal lib _ _ _); simpl; split;
      [discriminate | intros [H _]; discriminate H
      | discriminate | intros [H _]; discriminate H].
  - destruct (Api.get "category" ps) as [[|a c]|]; simpl.
    + split; auto.
    + destruct (Api.getCategoryYoY lib _ _ _); simpl; split;
        [discriminate | intros [_ H]; discriminate H
        | discriminate | intros [_ H]; discriminate H].
    + split; auto.
Qed.

(** * The chat widget *)

(** ** Opening, closing and minimizing *)

Lemma on_click_lands (w : Widget.State) (c : Widget.click) :
  Widget.on_click w c = closed_state
  \/ Widget.on_click w c = open_state
  \/ Widget.on_click w c = minimized_state.
Proof.
  destruct c; simpl; unfold Widget.toggle, Widget.close, Widget.minimize,
    Widget.expand, Widget.updateWidgetState, Widget.set_flags; simpl; auto.
  destruct (Widget.isOpen w); simpl; auto.
Qed.

Lemma after_clicks_snoc (cs : list Widget.click) (c : Widget.click) :
  Widget.after_clicks (cs ++ [c])%list
  = Widget.on_click (Widget.after_clicks cs) c.
Proof.
  unfold Widget.after_clicks. now rewrite fold_left_app.
Qed.

Lemma after_clicks_lands (cs : list Widget.click) :
  Widget.after_clicks cs = closed_state
  \/ Widget.after_clicks cs = open_state
  \/ Widget.after_clicks cs = minimized_state.
Proof.
  destruct cs as [|c cs] using rev_ind.
  - left. reflexivity.
  - rewrite after_clicks_snoc. apply on_click_lands.
Qed.

(** X8. After its creation and after any sequence of clicks on its four
    controls, the widget is in one of three states, and the page shows
    exactly one of its controls: the full button when it is closed, the
    panel when it is open, the minimized button when it is minimized.  It
    is never both open and minimized. *)
Theorem widget_shows_one_control :
  forall cs : list Widget.click,
    (Widget.after_clicks cs = closed_state
     \/ Widget.after_clicks cs = open_state
     \/ Widget.after_clicks cs = minimized_state) /\
    panel_visible (Widget.after_clicks cs)
    = Widget.isOpen (Widget.after_clicks cs) /\
    minimized_visible (Widget.after_clicks cs)
    = Widget.isMinimized (Widget.after_clicks cs) /\
    button_visible (Widget.after_clicks cs)
    = negb (Widget.isOpen (Widget.after_clicks cs))
      && negb (Widget.isMinimized (Widget.after_clicks cs)) /\
    Widget.isOpen (Widget.after_clicks cs)
    && Widget.isMinimized (Widget.after_clicks cs) = false.
Proof.
  intros cs. split; [apply after_clicks_lands |].
  destruct (after_clicks_lands cs) as [H|[H|H]]; rewrite H;
    repeat split.
Qed.

(** X9. Toggling twice brings the widget back to the state it was in,
    except from the minimized state: there the first toggle opens the
    panel, so the second leaves the widget closed. *)
Theorem toggle_twice :
  forall cs : list Widget.click,
    Widget.toggle (Widget.toggle (Widget.after_clicks cs))
    = if Widget.isMinimized (Widget.after_clicks cs)
      then closed_state
      else Widget.after_clicks cs.
Proof.
  intros cs.
  destruct (after_clicks_lands cs) as [H|[H|H]]; rewrite H; reflexivity.
Qed.

(** ** The question behind an answer *)

Lemma previous_user_skip (skipped : list Widget.MessageDiv)
      (u : Widget.MessageDiv) (rest : list Widget.MessageDiv) :
  (forall x, In x skipped -> Widget.is_user x = false) ->
  Widget.is_user u = true ->
  Widget.previous_user (skipped ++ u :: rest)%list = Widget.bubble_text u.
Proof.
  intros Hskip Hu. induction skipped as [|m skipped IH]; simpl.
  - now rewrite Hu.
  - rewrite (Hskip m (or_introl eq_refl)). apply IH.
    intros x Hx. apply Hskip. now right.
Qed.

Lemma previous_user_none (l : list Widget.MessageDiv) :
  (forall x, In x l -> Widget.is_user x = false) ->
  Widget.previous_user l = "".
Proof.
  intros H. induction l as [|m l IH]; simpl; [reflexivity |].
  rewrite (H m (or_introl eq_refl)). apply IH.
  intros x Hx. apply H. now right.
Qed.

Lemma scan_back_skip (later : list Widget.MessageDiv) (d : nat)
      (rest : list Widget.MessageDiv) :
  (forall x, In x later -> Widget.element x <> d) ->
  Widget.scan_back (later ++ rest)%list d = Widget.scan_back rest d.
Proof.
  intros H. induction later as [|m later IH]; simpl; [reflexivity |].
  destruct (Nat.eqb_spec (Widget.element m) d) as [E|_].
  - now elim (H m (or_introl eq_refl)).
  - apply IH. intros x Hx. apply H. now right.
Qed.

Lemma in_rev_iff {A : Type} (P : A -> Prop) (l : list A) :
  (forall x, In x l -> P x) -> forall x, In x (rev l) -> P x.
Proof.
  intros H x Hx. apply H. now apply in_rev.
Qed.

(** X10. For the element of an answer, [getQuestionFromMessage] returns
    the text of the nearest user message before it: the messages between
    the two are not of the user, and what comes after the answer plays no
    part. *)
Theorem question_is_nearest_user_message :
  forall (before between after : list Widget.MessageDiv)
         (u m : Widget.MessageDiv) (messageDiv : nat),
    Widget.is_user u = true ->
    (forall x, In x between -> Widget.is_user x = false) ->
    Widget.element m = messageDiv ->
    (forall x, In x after -> Widget.element x <> messageDiv) ->
    Widget.getQuestionFromMessage
      (before ++ u :: between ++ m :: after)%list messageDiv
    = Widget.bubble_text u.
Proof.
  intros before between after u m d Hu Hbetween Hm Hafter.
  unfold Widget.getQuestionFromMessage.
  rewrite rev_app_distr. simpl rev. rewrite rev_app_distr. simpl rev.
  rewrite <- !app_assoc. simpl app.
  rewrite scan_back_skip by (apply in_rev_iff; exact Hafter).
  simpl. rewrite Hm, Nat.eqb_refl.
  apply previous_user_skip; [|exact Hu].
  apply in_rev_iff. exact Hbetween.
Qed.

(** X11. [getQuestionFromMessage] returns the empty string when the
    element is not among the messages, and when no user message comes
    before it. *)
Theorem no_question_without_user_message :
  forall (messageDiv : nat),
    (forall all : list Widget.MessageDiv,
        (forall x, In x all -> Widget.element x <> messageDiv) ->
        Widget.getQuestionFromMessage all messageDiv = "") /\
    (forall (before after : list Widget.MessageDiv) (m : Widget.MessageDiv),
        (forall x, In x before -> Widget.is_user x = false) ->
        Widget.element m = messageDiv ->
        (forall x, In x after -> Widget.element x <> messageDiv) ->
        Widget.getQuestionFromMessage (before ++ m :: after)%list messageDiv
        = "").
Proof.
  intros d. split.
  - intros all H. unfold Widget.getQuestionFromMessage.
    rewrite <- (app_nil_r (rev all)).
    rewrite scan_back_skip by (apply in_rev_iff; exact H). reflexivity.
  - intros before after m Hbefore Hm Hafter.
    unfold Widget.getQuestionFromMessage.
    rewrite rev_app_distr. simpl rev. rewrite <- app_assoc. simpl app.
    rewrite scan_back_skip by (apply in_rev_iff; exact Hafter).
    simpl. rewrite Hm, Nat.eqb_refl.
    apply previous_user_none. apply in_rev_iff. exact Hbefore.
Qed.

(** ** Formatting the insights *)

Lemma lacks_append (c : ascii) (a b : string) :
  lacks c (a ++ b) = lacks c a && lacks c b.
Proof.
  induction a as [|d a IH]; simpl; [reflexivity |].
  now rewrite IH, andb_assoc.
Qed.

Lemma replace_newlines_lacks_line_feed (s : string) :
  lacks Widget.line_feed (Widget.replace_newlines s) = true.
Proof.
  induction s as [|c s IH]; simpl; [reflexivity |].
  destruct (Ascii.eqb c Widget.line_feed) eqn:E.
  - exact IH.
  - simpl. now rewrite E, IH.
Qed.

Lemma replace_newlines_append (a b : string) :
  Widget.replace_newlines (a ++ b)
  = Widget.replace_newlines a ++ Widget.replace_newlines b.
Proof.
  induction a as [|c a IH]; simpl; [reflexivity |].
  destruct (Ascii.eqb c Widget.line_feed); simpl; now rewrite IH.
Qed.

Lemma replace_newlines_same (s : string) :
  lacks Widget.line_feed s = true -> Widget.replace_newlines s = s.
Proof.
  induction s as [|c s IH]; simpl; [reflexivity |].
  destruct (Ascii.eqb c Widget.line_feed); simpl; [discriminate |].
  intros H. now rewrite IH.
Qed.

Lemma close_bold_lacks_line_feed (k : string -> string) (n : nat) :
  (forall rest : string,
      (String.length rest <= n)%nat ->
      lacks Widget.line_feed rest = true ->
      lacks Widget.line_feed (k rest) = true) ->
  forall (t group replaced : string),
    (String.length t <= n)%nat ->
    lacks Widget.line_feed t = true ->
    lacks Widget.line_feed group = true ->
    Widget.close_bold k t group = Some replaced ->
    lacks Widget.line_feed replaced = true.
Proof.
  intros Hk t. induction t as [|c t IH]; intros group replaced Hlen Ht Hg H.
  - discriminate H.
  - simpl in Ht. apply andb_true_iff in Ht. destruct Ht as [Hc Ht].
    assert (Hmore :
              (if Widget.at_line_terminator (String c t) then None
               else Widget.close_bold k t (group ++ String c ""))
              = Some replaced ->
              lacks Widget.line_feed replaced = true).
    { destruct (Widget.at_line_terminator (String c t)); [discriminate |].
      apply IH.
      - simpl in Hlen. lia.
      - exact Ht.
      - rewrite lacks_append, Hg. simpl. now rewrite Hc. }
    cbn [Widget.close_bold] in H.
    destruct (Ascii.eqb c Widget.star); [|now apply Hmore].
    destruct t as [|d rest]; [now apply Hmore |].
    destruct (Ascii.eqb d Widget.star); [|now apply Hmore].
    injection H as <-.
    simpl in Ht. apply andb_true_iff in Ht. destruct Ht as [_ Hrest].
    assert (Hk' : lacks Widget.line_feed (k rest) = true).
    { apply Hk; [simpl in Hlen; lia | exact Hrest]. }
    cbn [append lacks]. rewrite !lacks_append, Hg.
    cbn [append lacks]. rewrite Hk'. reflexivity.
Qed.

Lemma replace_bold_lacks_line_feed (n : nat) :
  forall s : string,
    (String.length s <= n)%nat ->
    lacks Widget.line_feed s = true ->
    lacks Widget.line_feed (Widget.replace_bold s) = true.
Proof.
  induction n as [|n IH]; intros s Hlen Hs.
  - destruct s; [reflexivity | simpl in Hlen; lia].
  - destruct s as [|c tl]; [reflexivity |].
    simpl in Hlen. simpl in Hs. apply andb_true_iff in Hs.
    destruct Hs as [Hc Htl].
    assert (Hkeep :
              lacks Widget.line_feed (String c (Widget.replace_bold tl))
              = true).
    { simpl. rewrite Hc. apply IH; [lia | exact Htl]. }
    cbn [Widget.replace_bold].
    destruct (Ascii.eqb c Widget.star); [|exact Hkeep].
    destruct tl as [|d body]; [exact Hkeep |].
    destruct (Ascii.eqb d Widget.star); [|exact Hkeep].
    destruct (Widget.close_bold Widget.replace_bold body "")
      as [replaced|] eqn:E; [|exact Hkeep].
    simpl in Htl. apply andb_true_iff in Htl. destruct Htl as [_ Hbody].
    apply (close_bold_lacks_line_feed Widget.replace_bold n IH body ""
             replaced); [simpl in Hlen; lia | exact Hbody | reflexivity
                        | exact E].
Qed.

(** X12. Whatever the insights text is, what [formatInsights] returns has
    no line feed left in it: every one became '<br>', and making spans bold
    brings none back. *)
Theorem formatInsights_no_line_feed :
  forall insights : string,
    lacks Widget.line_feed (Widget.formatInsights insights) = true.
Proof.
  intros insights. unfold Widget.formatInsights.
  apply (replace_bold_lacks_line_feed
           (String.length (Widget.replace_newlines insights)));
    [apply le_n | apply replace_newlines_lacks_line_feed].
Qed.

Lemma replace_bold_prefix (p rest : string) :
  lacks Widget.star p = true ->
  Widget.replace_bold (p ++ rest) = p ++ Widget.replace_bold rest.
Proof.
  induction p as [|c p IH]; intros H; [reflexivity |].
  simpl in H. apply andb_true_iff in H. destruct H as [Hc Hp].
  apply negb_true_iff in Hc.
  change (String c p ++ rest) with (String c (p ++ rest)).
  cbn [Widget.replace_bold]. rewrite Hc. cbn [append]. now rewrite IH.
Qed.

Lemma replace_newlines_lacks_star (s : string) :
  lacks Widget.star s = true ->
  lacks Widget.star (Widget.replace_newlines s) = true.
Proof.
  induction s as [|c s IH]; simpl; [reflexivity |].
  intros H. apply andb_true_iff in H. destruct H as [Hc Hs].
  destruct (Ascii.eqb c Widget.line_feed); simpl.
  - now apply IH.
  - now rewrite Hc, IH.
Qed.

(** X13. Text without a star is not touched by the bold rule: it comes
    back with its line feeds replaced and nothing else changed, and
    unchanged altogether when it has no line feed either; markup it may
    contain is passed through as it is. *)
Theorem formatInsights_plain_text :
  forall insights : string,
    lacks Widget.star insights = true ->
    Widget.formatInsights insights = Widget.replace_newlines insights /\
    (lacks Widget.line_feed insights = true ->
     Widget.formatInsights insights = insights).
Proof.
  intros insights Hstar. unfold Widget.formatInsights.
  assert (H : Widget.replace_bold (Widget.replace_newlines insights)
              = Widget.replace_newlines insights).
  { rewrite <- (append_nil_r (Widget.replace_newlines insights)) at 1.
    rewrite replace_bold_prefix by now apply replace_newlines_lacks_star.
    simpl. apply append_nil_r. }
  split; [exact H |].
  intros Hlf. rewrite H. now apply replace_newlines_same.
Qed.

Lemma close_bold_none (k : string -> string) (t : string) :
  forall group : string,
    lacks Widget.star t = true -> Widget.close_bold k t group = None.
Proof.
  induction t as [|c t IH]; intros group H; [reflexivity |].
  simpl in H. apply andb_true_iff in H. destruct H as [Hc Ht].
  apply negb_true_iff in Hc.
  cbn [Widget.close_bold]. rewrite Hc.
  destruct (Widget.at_line_terminator (String c t)); [reflexivity |].
  now apply IH.
Qed.

Lemma replace_bold_same (r : string) :
  lacks Widget.star r = true -> Widget.replace_bold r = r.
Proof.
  intros H. rewrite <- (append_nil_r r) at 1.
  rewrite replace_bold_prefix by exact H. simpl. apply append_nil_r.
Qed.

Lemma replace_bold_unclosed (r : string) :
  lacks Widget.star r = true ->
  Widget.replace_bold (String Widget.star (String Widget.star r))
  = String Widget.star (String Widget.star r).
Proof.
  intros H.
  assert (Hone : Widget.replace_bold (String Widget.star r)
                 = String Widget.star r).
  { pose proof (replace_bold_same r H) as Hr.
    destruct r as [|d tl].
    - reflexivity.
    - simpl in H. apply andb_true_iff in H. destruct H as [Hd _].
      apply negb_true_iff in Hd.
      change (Widget.replace_bold (String Widget.star (String d tl)))
        with (if Ascii.eqb d Widget.star
              then match Widget.close_bold Widget.replace_bold tl "" with
                   | Some replaced => replaced
                   | None =>
                       String Widget.star
                         (Widget.replace_bold (String d tl))
                   end
              else String Widget.star (Widget.replace_bold (String d tl))).
      now rewrite Hd, Hr. }
  change (Widget.replace_bold (String Widget.star (String Widget.star r)))
    with (match Widget.close_bold Widget.replace_bold r "" with
          | Some replaced => replaced
          | None =>
              String Widget.star
                (Widget.replace_bold (String Widget.star r))
          end).
  now rewrite close_bold_none, Hone.
Qed.

(** X15. Double stars that are never closed are left in the text: with no
    star before them and none after, the text comes back with its line
    feeds replaced and nothing made bold. *)
Theorem formatInsights_unclosed_marker :
  forall pre rest : string,
    lacks Widget.star pre = true ->
    lacks Widget.star rest = true ->
    Widget.formatInsights (pre ++ "**" ++ rest)
    = Widget.replace_newlines pre ++ "**" ++ Widget.replace_newlines rest.
Proof.
  intros pre rest Hpre Hrest. unfold Widget.formatInsights.
  rewrite replace_newlines_append.
  change (Widget.replace_newlines ("**" ++ rest))
    with (String Widget.star
            (String Widget.star (Widget.replace_newlines rest))).
  rewrite replace_bold_prefix by now apply replace_newlines_lacks_star.
  rewrite replace_bold_unclosed by now apply replace_newlines_lacks_star.
  reflexivity.
Qed.

(** * The listing of all changes *)



(** * Witnesses for the widget *)

Lemma question_is_nearest_user_message_witness :
  Widget.getQuestionFromMessage sample_messages 4 = "And for FY26?" /\
  Widget.getQuestionFromMessage sample_messages 2
  = "What is the total budget for FY25?".
Proof.
  split.
  - apply (question_is_nearest_user_message
             (firstn 2 sample_messages) [] []
             {| Widget.element := 3; Widget.is_user := true;
                Widget.bubble_text := "And for FY26?" |}
             {| Widget.element := 4; Widget.is_user := false;
                Widget.bubble_text := "Total FY26 budget: $2,721,944." |}
             4%nat).
    + reflexivity.
    + intros x [].
    + reflexivity.
    + intros x [].
  - apply (question_is_nearest_user_message
             [] [] (skipn 2 sample_messages)
             {| Widget.element := 1; Widget.is_user := true;
                Widget.bubble_text := "What is the total budget for FY25?" |}
             {| Widget.element := 2; Widget.is_user := false;
                Widget.bubble_text := "Total FY25 budget: $6,894,068." |}
             2%nat).
    + reflexivity.
    + intros x [].
    + reflexivity.
    + simpl. intros x [<-|[<-|[]]]; discriminate.
Defined.

Lemma no_question_without_user_message_witness :
  Widget.getQuestionFromMessage sample_messages 9 = "" /\
  Widget.getQuestionFromMessage (skipn 1 sample_messages) 2 = "".
Proof.
  destruct (no_question_without_user_message 9) as [Habsent _].
  destruct (no_question_without_user_message 2) as [_ Hfirst].
  split.
  - apply Habsent. simpl.
    intros x [<-|[<-|[<-|[<-|[]]]]]; discriminate.
  - apply (Hfirst [] (skipn 2 sample_messages)
             {| Widget.element := 2; Widget.is_user := false;
                Widget.bubble_text := "Total FY25 budget: $6,894,068." |}).
    + intros x [].
    + reflexivity.
    + simpl. intros x [<-|[<-|[]]]; discriminate.
Defined.

Lemma formatInsights_plain_text_witness :
  lacks Widget.star "Spending <b>rose</b> in FY25." = true /\
  Widget.formatInsights "Spending <b>rose</b> in FY25."
  = "Spending <b>rose</b> in FY25.".
Proof.
  split; [reflexivity |].
  apply (formatInsights_plain_text "Spending <b>rose</b> in FY25.");
    reflexivity.
Defined.

Lemma formatInsights_unclosed_marker_witness :
  lacks Widget.star "Note " = true /\
  lacks Widget.star "draft figures" = true /\
  Widget.formatInsights ("Note " ++ "**" ++ "draft figures")
  = "Note **draft figures".
Proof.
  split; [reflexivity | split; [reflexivity |]].
  apply (formatInsights_unclosed_marker "Note " "draft figures");
    reflexivity.
Defined.

Example formatInsights_figures :
  Widget.formatInsights ("Total **up**" ++ nl ++ "next") =
  "Total <strong>up</strong><br>next" /\
  Widget.formatInsights "***a**" = "<strong>*a</strong>" /\
  Widget.formatInsights "****" = "<strong></strong>" /\
  Widget.formatInsights "a ** b * c" = "a ** b * c".
Proof.
  repeat split.
Qed.

(** * The resolver at run time *)

Import Wiring.

(** ** C3, C4: the resolver in front of the year-totals and yoy routes *)

(** C3. In front of the year-totals route of this repository the year_total
    branch does not answer: the route wraps its rows in {success, data,
    message} (or answers the failure envelope), the branch takes the parsed
    body itself for the rows, and [rows.find] on an object throws a
    TypeError, whatever the year, the query layer and the platform. *)
Theorem year_total_throws_on_the_envelope :
  forall (P : Runtime.Platform number) (lib : Api.BudgetLib) (y : Year)
         (pd : nullable bool),
    Runtime.handleIntent P (Runtime.year_total y pd) (served P lib)
    = Runtime.TypeError.
Proof.
  intros P lib y pd.
  unfold Runtime.handleIntent, served, Runtime.fetch_year_totals,
    Api.year_totals.GET, Api.try_catch.
  destruct (Api.getYearTotals lib); reflexivity.
Qed.

(** C4. In front of the yoy route of this repository the yoy_difference
    branch does not answer either: the body is the envelope, not the
    array of rows, and [rows.find] on it throws a TypeError before any row
    is looked for. *)
Theorem yoy_difference_throws_on_the_envelope :
  forall (P : Runtime.Platform number) (lib : Api.BudgetLib)
         (year_from year_to : Year),
    Runtime.handleIntent P (Runtime.yoy_difference year_from year_to)
      (served P lib)
    = Runtime.TypeError.
Proof.
  intros P lib year_from year_to.
  unfold Runtime.handleIntent, served, Runtime.fetch_yoy,
    Api.yoy.GET, Api.try_catch.
  destruct (Api.getYoY lib); reflexivity.
Qed.

(** On the rows themselves the year_total branch answers as intended. *)
Example year_total_on_the_rows :
  Runtime.handleIntent whole_numbers (Runtime.year_total FY25 Undefined)
    (bare_rows whole_numbers figures_lib)
  = Runtime.Returns
      "Total FY25 budget: $6,894,068. Source: v_year_totals(FY25).".
Proof.
  reflexivity.
Qed.

(** The sibling branches read [json.data], and in front of the same routes
    they answer. *)
Example category_share_reads_data :
  Runtime.handleIntent whole_numbers
    (Runtime.category_share FY25 "Taxes") (served whole_numbers figures_lib)
  = Runtime.Returns
      ("Taxes in FY25: $1,481,200 (21% of total)."
         ++ " Source: v_category_shares(FY25).").
Proof.
  reflexivity.
Qed.

(** ** C5: the currency format *)

(** C5. [USD] renders null, undefined and every number that is NaN as '$0'
    (and so every value that is no number), and every other number as '$'
    followed by what [toLocaleString('en-US')] gives for it, whatever the
    number is.  On whole amounts up to 2^53 - 1 that is the minus sign
    when negative and the decimal digits with thousands separators: a
    leading group of one to three digits, then groups of three digits each
    after a comma, which read as the absolute value without the commas. *)
Theorem USD_format :
  (forall (num : Type) (P : Runtime.Platform num),
      Runtime.USD P Runtime.VNull = "$0" /\
      Runtime.USD P Runtime.VUndefined = "$0" /\
      (forall n : num,
          Runtime.isNaN P n = true ->
          Runtime.USD P (Runtime.VNumber n) = "$0") /\
      (forall n : num,
          Runtime.isNaN P n = false ->
          Runtime.USD P (Runtime.VNumber n)
          = "$" ++ Runtime.toLocaleString_en_US P n) /\
      (forall v : Runtime.value num,
          (forall n : num, v <> Runtime.VNumber n) ->
          Runtime.USD P v = "$0")) /\
  (forall z : Z,
      (Z.abs z <= 2 ^ 53 - 1)%Z ->
      exists body : list ascii,
        Runtime.USD whole_numbers (Runtime.VNumber (Num z))
        = "$" ++ (if (z <? 0)%Z then "-" else "")
            ++ string_of_list_ascii body /\
        thousands body /\
        read_decimal (strip_commas body) = Some (Z.abs_N z)).
Proof.
  split.
  - intros num P. repeat split.
    + intros n H. simpl. now rewrite H.
    + intros n H. simpl. now rewrite H.
    + intros v H. destruct v; try reflexivity. now elim (H n).
  - intros z _. exists (group3 (digits (Z.abs_N z))).
    destruct (group3_thousands (List.length (digits (Z.abs_N z)))
                (digits (Z.abs_N z)) (le_n _) (digits_nonempty _)
                (digits_are_digits _)) as [Hth Hstrip].
    split; [reflexivity | split; [exact Hth |]].
    rewrite Hstrip. apply read_digits.
Qed.

Lemma USD_format_witness :
  Runtime.isNaN whole_numbers NaN = true /\
  Runtime.USD whole_numbers (Runtime.VNumber NaN) = "$0" /\
  Runtime.isNaN whole_numbers (Num 5391635) = false /\
  Runtime.USD whole_numbers (Runtime.VNumber (Num 5391635)) = "$5,391,635" /\
  (forall n : number,
      Runtime.VString "20389" <> @Runtime.VNumber number n) /\
  Runtime.USD whole_numbers (Runtime.VString "20389") = "$0" /\
  (Z.abs (-4172124) <= 2 ^ 53 - 1)%Z /\
  exists body : list ascii,
    Runtime.USD whole_numbers (Runtime.VNumber (Num (-4172124)))
    = "$" ++ "-" ++ string_of_list_ascii body /\
    thousands body /\
    read_decimal (strip_commas body) = Some 4172124%N.
Proof.
  destruct USD_format as [Hany Hwhole].
  destruct (Hany number whole_numbers) as [_ [_ [Hnan [Hnum Hother]]]].
  split; [reflexivity |].
  split; [apply Hnan; reflexivity |].
  split; [reflexivity |].
  split; [apply (Hnum (Num 5391635)); reflexivity |].
  split; [intros n; discriminate |].
  split; [apply Hother; intros n; discriminate |].
  split; [vm_compute; discriminate |].
  apply (Hwhole (-4172124)%Z). vm_compute. discriminate.
Defined.

(** ** C6: the ranking *)

Lemma rank_line_readable {num : Type} (P : Runtime.Platform num)
      (r : Runtime.value num) (i : nat) :
  readable r = true ->
  Runtime.rank_line P r i
  = Runtime.Returns
      (Runtime.decimal (i + 1) ++ ". "
         ++ Runtime.ToString P (Runtime.member "category" r) ++ ": "
         ++ Runtime.USD P (Runtime.member "total" r)).
Proof.
  destruct r; intros H; try discriminate H; reflexivity.
Qed.

Lemma map_from_rank_line {num : Type} (P : Runtime.Platform num) :
  forall (items : list (Runtime.value num)) (i : nat),
    (forall r, In r items -> readable r = true) ->
    exists lines : list string,
      Runtime.map_from i (Runtime.rank_line P) items = Runtime.Returns lines /\
      List.length lines = List.length items /\
      forall (k : nat) (r : Runtime.value num),
        nth_error items k = Some r ->
        nth_error lines k
        = Some (Runtime.decimal (i + k + 1) ++ ". "
                  ++ Runtime.ToString P (Runtime.member "category" r) ++ ": "
                  ++ Runtime.USD P (Runtime.member "total" r)).
Proof.
  induction items as [|r items IH]; intros i Hall.
  - exists []. split; [reflexivity | split; [reflexivity |]].
    intros [|k] r H; discriminate H.
  - destruct (IH (S i)) as [lines [Hmap [Hlen Hnth]]].
    { intros r0 Hr0. apply Hall. now right. }
    eexists. cbn [Runtime.map_from].
    rewrite rank_line_readable by (apply Hall; now left).
    cbn [Runtime.bind]. rewrite Hmap. cbn [Runtime.bind].
    split; [reflexivity |]. split; [simpl; now rewrite Hlen |].
    intros [|k] r0 H; simpl in H.
    + injection H as <-. cbn [nth_error]. now rewrite Nat.add_0_r.
    + cbn [nth_error]. rewrite (Hnth k r0 H).
      replace (S i + k + 1)%nat with (i + S k + 1)%nat by lia. reflexivity.
Qed.

Lemma isPartial_Year_str (y : Year) :
  Api.isPartial (Year_str y) = Year_eqb y FY26.
Proof.
  destruct y; reflexivity.
Qed.



(** ** C7: the share of a category *)

Lemma named_prop {num : Type} (r : Runtime.value num) (name : string) :
  named r name ->
  Runtime.prop "category" r = Runtime.Returns (Runtime.VString name).
Proof.
  unfold named. destruct r; intros H; try discriminate H;
    unfold Runtime.prop; now rewrite H.
Qed.

Lemma find_by_category_skips {num : Type} (P : Runtime.Platform num)
      (wanted : string) (rest : list (Runtime.value num)) :
  forall before : list (Runtime.value num),
    (forall r, In r before ->
               exists name, named r name /\
                            Runtime.String_toUpperCase P name <> wanted) ->
    Runtime.find_by_category P wanted (before ++ rest)%list
    = Runtime.find_by_category P wanted rest.
Proof.
  induction before as [|r before IH]; intros Hall; [reflexivity |].
  destruct (Hall r (or_introl eq_refl)) as [name [Hname Hother]].
  cbn [app Runtime.find_by_category].
  rewrite (named_prop _ _ Hname). cbn [Runtime.bind].
  destruct (String.eqb_spec (Runtime.String_toUpperCase P name) wanted)
    as [Heq|_]; [now elim Hother |].
  apply IH. intros r0 Hr0. apply Hall. now right.
Qed.

(** C7. For every category_share intent, with the body of the response
    parsed and its [data] read: the rows are searched in order for the
    first whose category, in upper case, is the requested category in
    upper case.  When every row has another category the answer is 'No
    data for <category> in <year>.'; when a row matches and the rows
    before it do not, the answer gives that row's total as dollars and its
    [pct_of_year] as the percentage, after the category as it was typed,
    with the note exactly for FY26.  When [data] is no array (the route's
    failure body has none) the resolver throws a TypeError.  In front of
    the shares route [data] is what the query returned for the year, as
    written to the body. *)
Theorem category_share_answer :
  (forall (num : Type) (P : Runtime.Platform num) (y : Year) (c : string)
          (api : Runtime.Backend num) (json rows : Runtime.value num),
      Runtime.fetch_shares api y = Ok json ->
      Runtime.prop "data" json = Runtime.Returns rows ->
      ((forall items, rows <> Runtime.VArray items) ->
       Runtime.handleIntent P (Runtime.category_share y c) api
       = Runtime.TypeError) /\
      forall items : list (Runtime.value num),
        rows = Runtime.VArray items ->
        ((forall r, In r items ->
                    exists name, named r name /\
                                 Runtime.String_toUpperCase P name
                                 <> Runtime.String_toUpperCase P c) ->
         Runtime.handleIntent P (Runtime.category_share y c) api
         = Runtime.Returns
             ("No data for " ++ c ++ " in " ++ Year_str y ++ ".")) /\
        (forall (before after : list (Runtime.value num))
                (row : Runtime.value num) (name : string),
            items = (before ++ row :: after)%list ->
            (forall r, In r before ->
                       exists other, named r other /\
                                     Runtime.String_toUpperCase P other
                                     <> Runtime.String_toUpperCase P c) ->
            named row name ->
            Runtime.String_toUpperCase P name
            = Runtime.String_toUpperCase P c ->
            Runtime.handleIntent P (Runtime.category_share y c) api
            = Runtime.Returns
                (let msg :=
                   c ++ " in " ++ Year_str y ++ ": "
                     ++ Runtime.USD P (Runtime.member "total" row) ++ " ("
                     ++ Runtime.ToString P (Runtime.member "pct_of_year" row)
                     ++ "% of total). Source: v_category_shares("
                     ++ Year_str y ++ ")." in
                 if Year_eqb y FY26 then msg ++ " " ++ PARTIAL_NOTE
                 else msg))) /\
  (forall (P : Runtime.Platform number) (lib : Api.BudgetLib) (y : Year)
          (data : Api.json),
      Api.getCategoryShares lib (Year_str y) = Ok data ->
      exists json : Runtime.value number,
        Runtime.fetch_shares (served P lib) y = Ok json /\
        Runtime.prop "data" json
        = Runtime.Returns (Runtime.parsed (Api.serialise data))).
Proof.
  split.
  - intros num P y c api json rows Hfetch Hdata. split.
    + intros Hrows. unfold Runtime.handleIntent.
      rewrite Hfetch. cbn [Runtime.await Runtime.bind].
      rewrite Hdata. cbn [Runtime.bind].
      destruct rows; try reflexivity. now elim (Hrows items).
    + intros items ->. split.
      * intros Hall. unfold Runtime.handleIntent.
        rewrite Hfetch. cbn [Runtime.await Runtime.bind].
        rewrite Hdata. cbn [Runtime.bind Runtime.as_array].
        rewrite <- (app_nil_r items).
        rewrite (find_by_category_skips P _ [] items Hall). reflexivity.
      * intros before after row name -> Hbefore Hname Hsame.
        unfold Runtime.handleIntent.
        rewrite Hfetch. cbn [Runtime.await Runtime.bind].
        rewrite Hdata. cbn [Runtime.bind Runtime.as_array].
        rewrite (find_by_category_skips P _ (row :: after) before Hbefore).
        cbn [Runtime.find_by_category].
        rewrite (named_prop _ _ Hname). cbn [Runtime.bind].
        rewrite Hsame, String.eqb_refl. reflexivity.
  - intros P lib y data H. eexists. split; [reflexivity |].
    unfold Api.shares.GET, Api.try_catch, Api.or_default.
    cbn [Api.get String.eqb Ascii.eqb Bool.eqb].
    cbv beta iota zeta. rewrite H. reflexivity.
Qed.

Lemma category_share_answer_witness :
  let api := served whole_numbers figures_lib in
  let json :=
    Runtime.parsed
      (Api.body (Api.shares.GET figures_lib [ ("year", "FY26") ])) in
  let taxes :=
    Runtime.VObject [ ("category", Runtime.VString "TAXES");
                      ("total", Runtime.VNumber (Num 1481200));
                      ("pct_of_year", Runtime.VNumber (Num 21)) ] in
  let police :=
    Runtime.VObject [ ("category", Runtime.VString "POLICE DEPARTMENT");
                      ("total", Runtime.VNumber (Num 1249212));
                      ("pct_of_year", Runtime.VNumber (Num 18)) ] in
  Runtime.fetch_shares api FY26 = Ok json /\
  Runtime.prop "data" json
  = Runtime.Returns (Runtime.VArray [taxes; police]) /\
  Runtime.handleIntent whole_numbers
    (Runtime.category_share FY26 "Roads") api
  = Runtime.Returns "No data for Roads in FY26." /\
  named police "POLICE DEPARTMENT" /\
  Runtime.String_toUpperCase whole_numbers "POLICE DEPARTMENT"
  = Runtime.String_toUpperCase whole_numbers "Police department" /\
  Runtime.handleIntent whole_numbers
    (Runtime.category_share FY26 "Police department") api
  = Runtime.Returns
      ("Police department in FY26: $1,249,212 (18% of total)."
         ++ " Source: v_category_shares(FY26). " ++ PARTIAL_NOTE) /\
  Runtime.fetch_shares (served whole_numbers failing_lib) FY26
  = Ok (Runtime.parsed
          (Api.body (Api.shares.GET failing_lib [ ("year", "FY26") ]))) /\
  Runtime.handleIntent whole_numbers
    (Runtime.category_share FY26 "Taxes") (served whole_numbers failing_lib)
  = Runtime.TypeError.
Proof.
  intros api json taxes police.
  destruct category_share_answer as [Hany _].
  destruct (Hany number whole_numbers FY26 "Roads" api json
              (Runtime.VArray [taxes; police]) eq_refl eq_refl)
    as [_ Hroads].
  destruct (Hroads [taxes; police] eq_refl) as [Hnone _].
  destruct (Hany number whole_numbers FY26 "Police department" api json
              (Runtime.VArray [taxes; police]) eq_refl eq_refl)
    as [_ Hpolice].
  destruct (Hpolice [taxes; police] eq_refl) as [_ Hfound].
  destruct (Hany number whole_numbers FY26 "Taxes"
              (served whole_numbers failing_lib)
              (Runtime.parsed
                 (Api.body (Api.shares.GET failing_lib [ ("year", "FY26") ])))
              Runtime.VUndefined eq_refl eq_refl)
    as [Hthrows _].
  split; [reflexivity |]. split; [reflexivity |].
  split.
  { apply Hnone. intros r [<-|[<-|[]]]; eexists;
      (split; [reflexivity | vm_compute; discriminate]). }
  split; [reflexivity |]. split; [reflexivity |].
  split.
  { apply (Hfound [taxes] [] police "POLICE DEPARTMENT" eq_refl).
    - intros r [<-|[]]. eexists.
      split; [reflexivity | vm_compute; discriminate].
    - reflexivity.
    - reflexivity. }
  split; [reflexivity |].
  apply Hthrows. intros items. discriminate.
Defined.

(** ** What the resolver is rejected with *)

Lemma bind_own {A B : Type} (m : Runtime.completion A)
      (k : A -> Runtime.completion B) :
  (forall e, m <> Runtime.Rejects e) ->
  (forall a e, k a <> Runtime.Rejects e) ->
  forall e, Runtime.bind m k <> Runtime.Rejects e.
Proof.
  intros Hm Hk e. destruct m as [a|e0|]; cbn [Runtime.bind].
  - apply Hk.
  - now elim (Hm e0).
  - discriminate.
Qed.

Lemma prop_own {num : Type} (name : string) (v : Runtime.value num) :
  forall e, Runtime.prop name v <> Runtime.Rejects e.
Proof.
  intros e. destruct v; discriminate.
Qed.

Lemma as_array_own {num : Type} (v : Runtime.value num) :
  forall e, Runtime.as_array v <> Runtime.Rejects e.
Proof.
  intros e. destruct v; discriminate.
Qed.

Lemma find_by_year_own {num : Type} (year : string)
      (items : list (Runtime.value num)) :
  forall e, Runtime.find_by_year year items <> Runtime.Rejects e.
Proof.
  induction items as [|r items IH]; [discriminate |].
  cbn [Runtime.find_by_year]. apply bind_own; [apply prop_own |].
  intros a e. destruct (Runtime.is_string year a); [discriminate | apply IH].
Qed.

Lemma find_by_category_own {num : Type} (P : Runtime.Platform num)
      (wanted : string) (items : list (Runtime.value num)) :
  forall e, Runtime.find_by_category P wanted items <> Runtime.Rejects e.
Proof.
  induction items as [|r items IH]; [discriminate |].
  cbn [Runtime.find_by_category]. apply bind_own; [apply prop_own |].
  intros a e. destruct a; try discriminate.
  destruct (String.eqb _ wanted); [discriminate | apply IH].
Qed.

Lemma map_from_own {num A : Type}
      (f : Runtime.value num -> nat -> Runtime.completion A) :
  (forall r i e, f r i <> Runtime.Rejects e) ->
  forall (items : list (Runtime.value num)) (i : nat) (e : thrown),
    Runtime.map_from i f items <> Runtime.Rejects e.
Proof.
  intros Hf. induction items as [|r items IH]; intros i; [discriminate |].
  cbn [Runtime.map_from]. apply bind_own; [apply Hf |].
  intros a. apply bind_own; [apply IH | discriminate].
Qed.

Lemma yoy_line_own {num : Type} (P : Runtime.Platform num)
      (r : Runtime.value num) (i : nat) :
  forall e, Runtime.yoy_line P r i <> Runtime.Rejects e.
Proof.
  unfold Runtime.yoy_line. apply bind_own; [apply prop_own |].
  intros a e. destruct (Runtime.is_nullish a); discriminate.
Qed.

Lemma rank_line_own {num : Type} (P : Runtime.Platform num)
      (r : Runtime.value num) (i : nat) :
  forall e, Runtime.rank_line P r i <> Runtime.Rejects e.
Proof.
  unfold Runtime.rank_line. apply bind_own; [apply prop_own |].
  discriminate.
Qed.

Lemma own_outcome {A : Type} (c : Runtime.completion A) :
  (forall e, c <> Runtime.Rejects e) ->
  (exists a, c = Runtime.Returns a) \/ c = Runtime.TypeError.
Proof.
  intros H. destruct c as [a|e|].
  - left. now exists a.
  - now elim (H e).
  - now right.
Qed.

Ltac own :=
  repeat first
    [ discriminate
    | apply as_array_own
    | apply prop_own
    | apply find_by_year_own
    | apply find_by_category_own
    | apply map_from_own
    | apply yoy_line_own
    | apply rank_line_own
    | apply bind_own
    | match goal with
      | |- (match ?x with _ => _ end) <> _ => destruct x
      | |- (if ?x then _ else _) <> _ => destruct x
      end
    | match goal with
      | |- _ <> _ => fail 1
      | |- _ => intro
      end ].


(** ** Spelling of the category *)

(** X3. Two spellings of a category with the same upper-case form select
    the same share row: both are answered with that row's figures, each
    after the spelling as typed, or both are answered 'No data', or both
    fail alike. *)
Theorem category_share_ignores_case :
  forall (num : Type) (P : Runtime.Platform num) (y : Year) (c c' : string)
         (api : Runtime.Backend num),
    Runtime.String_toUpperCase P c = Runtime.String_toUpperCase P c' ->
    match Runtime.handleIntent P (Runtime.category_share y c) api,
          Runtime.handleIntent P (Runtime.category_share y c') api with
    | Runtime.Returns a, Runtime.Returns a' =>
        (exists figures : string, a = c ++ figures /\ a' = c' ++ figures)
        \/ (a = "No data for " ++ c ++ " in " ++ Year_str y ++ "." /\
            a' = "No data for " ++ c' ++ " in " ++ Year_str y ++ ".")
    | Runtime.Rejects e, Runtime.Rejects e' => e = e'
    | Runtime.TypeError, Runtime.TypeError => True
    | _, _ => False
    end.
Proof.
  intros num P y c c' api Hsame. unfold Runtime.handleIntent.
  rewrite Hsame.
  destruct (Runtime.fetch_shares api y) as [json|e];
    cbn [Runtime.await Runtime.bind]; [| reflexivity].
  destruct (Runtime.prop "data" json) as [rows|e|];
    cbn [Runtime.bind]; [| reflexivity | exact I].
  destruct (Runtime.as_array rows) as [items|e|];
    cbn [Runtime.bind]; [| reflexivity | exact I].
  destruct (Runtime.find_by_category P _ items) as [[row|]|e|];
    cbn [Runtime.bind]; [| | reflexivity | exact I].
  - left. destruct (Year_eqb y FY26); eexists;
      (split; [rewrite ?append_assoc; reflexivity
              | rewrite ?append_assoc; reflexivity]).
  - right. split; reflexivity.
Qed.

Lemma category_share_ignores_case_witness :
  Runtime.String_toUpperCase whole_numbers "taxes"
  = Runtime.String_toUpperCase whole_numbers "Taxes" /\
  match Runtime.handleIntent whole_numbers
          (Runtime.category_share FY25 "taxes")
          (served whole_numbers figures_lib),
        Runtime.handleIntent whole_numbers
          (Runtime.category_share FY25 "Taxes")
          (served whole_numbers figures_lib) with
  | Runtime.Returns a, Runtime.Returns a' =>
      (exists figures : string,
          a = "taxes" ++ figures /\ a' = "Taxes" ++ figures)
      \/ (a = "No data for " ++ "taxes" ++ " in " ++ Year_str FY25 ++ "." /\
          a' = "No data for " ++ "Taxes" ++ " in " ++ Year_str FY25 ++ ".")
  | Runtime.Rejects e, Runtime.Rejects e' => e = e'
  | Runtime.TypeError, Runtime.TypeError => True
  | _, _ => False
  end.
Proof.
  split; [reflexivity |].
  apply (category_share_ignores_case number whole_numbers FY25
           "taxes" "Taxes" (served whole_numbers figures_lib)).
  reflexivity.
Defined.

(** ** What a successful response carries *)

Ltac settle d :=
  simpl; split;
  [ first [ discriminate | intros _; exists d; split; reflexivity ]
  | first [ intros [? [H _]]; discriminate H | intros _; reflexivity ] ].


(** A total that is NaN reaches the resolver as [null], which [USD]
    renders '$0'. *)
Example nan_total_is_written_null :
  query_data ELineItem nan_lib [] = Some (Api.JNumber NaN) /\
  field "total" (Api.body (respond ELineItem nan_lib [])) = Some Api.JNull /\
  Runtime.handleIntent whole_numbers
    (Runtime.line_item_total FY24 "ADMINISTRATION" "Payroll Taxes")
    (served whole_numbers nan_lib)
  = Runtime.Returns
      "FY24 ADMINISTRATION → Payroll Taxes: $0. Source: v_line_items.".
Proof.
  repeat split.
Qed.

(** ** Reading the currency format back *)

(** X2. A whole amount up to 2^53 - 1 in magnitude can be read back from
    what [USD] prints: drop the dollar sign and the commas, read the
    digits, restore the sign.  So two different such amounts never print
    alike. *)
Theorem USD_reads_back :
  forall z : Z,
    (Z.abs z <= 2 ^ 53 - 1)%Z ->
    parse_USD (Runtime.USD whole_numbers (Runtime.VNumber (Num z))) = Some z.
Proof.
  intros z _.
  destruct (group3_thousands (List.length (digits (Z.abs_N z)))
              (digits (Z.abs_N z)) (le_n _) (digits_nonempty _)
              (digits_are_digits _)) as [Hth Hstrip].
  change (Runtime.USD whole_numbers (Runtime.VNumber (Num z)))
    with ("$" ++ toLocaleString z).
  unfold toLocaleString, sign.
  destruct (Z.ltb_spec z 0) as [Hneg|Hpos].
  - cbn [append parse_USD]. rewrite Ascii.eqb_refl.
    cbn [Ascii.eqb Bool.eqb]. rewrite list_ascii_of_string_of_list_ascii.
    rewrite Hstrip, read_digits. simpl. f_equal. lia.
  - cbn [append parse_USD]. rewrite Ascii.eqb_refl.
    pose proof (thousands_chars _ Hth) as Hchars.
    pose proof (digits_nonempty (Z.abs_N z)) as Hne.
    destruct (group3 (digits (Z.abs_N z))) as [|d body] eqn:E.
    + exfalso. apply Hne. rewrite <- Hstrip. reflexivity.
    + clear E. cbn [string_of_list_ascii].
      assert (Hd : Ascii.eqb d "-" = false).
      { simpl in Hchars. apply andb_true_iff in Hchars.
        destruct Hchars as [Hd _].
        destruct (Ascii.eqb_spec d "-") as [->|]; [discriminate Hd |].
        reflexivity. }
      rewrite Hd.
      change (String d (string_of_list_ascii body))
        with (string_of_list_ascii (d :: body)).
      rewrite list_ascii_of_string_of_list_ascii.
      rewrite Hstrip, read_digits. simpl. f_equal. lia.
Qed.

Lemma USD_reads_back_witness :
  (Z.abs (-4172124) <= 2 ^ 53 - 1)%Z /\
  parse_USD "$-4,172,124" = Some (-4172124)%Z.
Proof.
  split; [vm_compute; discriminate |].
  apply (USD_reads_back (-4172124)). vm_compute. discriminate.
Defined.

(** ** Bold spans *)

Lemma at_separator_replace_newlines (c : ascii) (tl : string) :
  at_separator (String c (Widget.replace_newlines tl))
  = at_separator (String c tl).
Proof.
  destruct tl as [|c1 tl]; [reflexivity |].
  cbn [Widget.replace_newlines].
  destruct (Ascii.eqb_spec c1 Widget.line_feed) as [->|_].
  - unfold at_separator. cbn [append].
    destruct (Nat.eqb (nat_of_ascii c) 226); destruct tl; reflexivity.
  - destruct tl as [|c2 tl]; [reflexivity |].
    cbn [Widget.replace_newlines].
    destruct (Ascii.eqb_spec c2 Widget.line_feed) as [->|_];
      [| reflexivity].
    unfold at_separator. cbn [append].
    destruct (Nat.eqb (nat_of_ascii c) 226),
      (Nat.eqb (nat_of_ascii c1) 128); reflexivity.
Qed.

Lemma at_separator_first (c : ascii) (s : string) :
  Nat.eqb (nat_of_ascii c) 226 = false ->
  at_separator (String c s) = false.
Proof.
  intros H. destruct s as [|c1 [|c2 s]]; try reflexivity.
  unfold at_separator. now rewrite H.
Qed.

Lemma replace_newlines_span_text (x : string) :
  span_text x = true ->
  span_text (Widget.replace_newlines x) = true.
Proof.
  induction x as [|c x IH]; [reflexivity |].
  intros H. cbn [span_text] in H.
  apply andb_true_iff in H. destruct H as [H Hx].
  apply andb_true_iff in H. destruct H as [H Hsep].
  cbn [Widget.replace_newlines].
  destruct (Ascii.eqb c Widget.line_feed).
  - specialize (IH Hx). revert IH.
    generalize (Widget.replace_newlines x). intros r Hr.
    cbn [append span_text].
    rewrite !at_separator_first by reflexivity. rewrite Hr. reflexivity.
  - cbn [span_text]. rewrite at_separator_replace_newlines.
    now rewrite H, Hsep, IH.
Qed.

Lemma span_text_not_terminator (c : ascii) (x post : string) :
  span_text (String c x) = true ->
  Ascii.eqb c Widget.line_feed = false ->
  Widget.at_line_terminator (String c (x ++ "**" ++ post)) = false.
Proof.
  intros H Hlf. cbn [span_text] in H.
  apply andb_true_iff in H. destruct H as [H _].
  apply andb_true_iff in H. destruct H as [H Hsep].
  apply andb_true_iff in H. destruct H as [_ Hcr].
  apply negb_true_iff in Hcr, Hsep.
  unfold Widget.at_line_terminator. rewrite Hlf, Hcr. cbn [orb].
  destruct (Nat.eqb (nat_of_ascii c) 226) eqn:E; [| reflexivity].
  cbn [andb]. unfold at_separator in Hsep.
  destruct x as [|c1 [|c2 x]].
  - reflexivity.
  - cbn [append]. destruct (Nat.eqb (nat_of_ascii c1) 128); reflexivity.
  - cbn [append]. rewrite E in Hsep. exact Hsep.
Qed.

Lemma close_bold_finds (k : string -> string) (x : string) :
  forall (group post : string),
    span_text x = true ->
    lacks Widget.line_feed x = true ->
    Widget.close_bold k (x ++ "**" ++ post) group
    = Some ("<strong>" ++ group ++ x ++ "</strong>" ++ k post).
Proof.
  induction x as [|c x IH]; intros group post Hspan Hlf.
  - reflexivity.
  - pose proof Hspan as Hall. cbn [span_text] in Hspan.
    cbn [lacks] in Hlf.
    apply andb_true_iff in Hspan. destruct Hspan as [Hc Hx].
    apply andb_true_iff in Hc. destruct Hc as [Hc _].
    apply andb_true_iff in Hc. destruct Hc as [Hstar _].
    apply andb_true_iff in Hlf. destruct Hlf as [Hclf Hxlf].
    apply negb_true_iff in Hclf.
    change (String c x ++ "**" ++ post)
      with (String c (x ++ "**" ++ post)).
    cbn [Widget.close_bold].
    rewrite (span_text_not_terminator c x post Hall Hclf).
    apply negb_true_iff in Hstar. rewrite Hstar.
    rewrite IH by assumption.
    rewrite (append_assoc group). reflexivity.
Qed.

(** X14. A span between two double stars, with no star, carriage return,
    U+2028 or U+2029 inside, after text without a star, is made bold: the
    stars go, the span is wrapped in <strong>, the text before it is kept,
    and what follows is formatted in turn.  The span may hold line feeds
    (they have become '<br>' before the bold rule is applied) and any
    other text, dashes and currency signs included. *)
Theorem formatInsights_bold_span :
  forall pre x post : string,
    lacks Widget.star pre = true ->
    span_text x = true ->
    Widget.formatInsights (pre ++ "**" ++ x ++ "**" ++ post)
    = Widget.replace_newlines pre ++ "<strong>"
        ++ Widget.replace_newlines x ++ "</strong>"
        ++ Widget.formatInsights post.
Proof.
  intros pre x post Hpre Hx. unfold Widget.formatInsights.
  rewrite replace_newlines_append.
  change ("**" ++ x ++ "**" ++ post)
    with (String Widget.star (String Widget.star (x ++ "**" ++ post))).
  cbn [Widget.replace_newlines]. change (Ascii.eqb Widget.star Widget.line_feed)
    with false. cbv iota.
  rewrite replace_newlines_append.
  change (Widget.replace_newlines ("**" ++ post))
    with ("**" ++ Widget.replace_newlines post).
  rewrite replace_bold_prefix by now apply replace_newlines_lacks_star.
  cbn [Widget.replace_bold]. rewrite Ascii.eqb_refl.
  rewrite close_bold_finds.
  - reflexivity.
  - now apply replace_newlines_span_text.
  - apply replace_newlines_lacks_line_feed.
Qed.

Lemma formatInsights_bold_span_witness :
  lacks Widget.star "Key point: " = true /\
  span_text ("taxes — up" ++ nl ++ "€5") = true /\
  Widget.formatInsights
    ("Key point: " ++ "**" ++ ("taxes — up" ++ nl ++ "€5") ++ "**"
       ++ " in FY25")
  = "Key point: <strong>taxes — up<br>€5</strong> in FY25".
Proof.
  split; [reflexivity | split; [reflexivity |]].
  apply (formatInsights_bold_span "Key point: " ("taxes — up" ++ nl ++ "€5")
           " in FY25"); reflexivity.
Defined.

(** ** The two readings of the resolver *)

Lemma Year_str_eqb (a b : Year) :
  String.eqb (Year_str a) (Year_str b) = Year_eqb a b.
Proof.
  destruct a, b; reflexivity.
Qed.

Lemma USD_of_nullable (n : nullable number) :
  Runtime.USD whole_numbers (Annotated.of_nullable n) = USD n.
Proof.
  destruct n as [| |[z|]]; reflexivity.
Qed.

Lemma find_by_year_annotated {A : Type} (shape : A -> Runtime.value number)
      (year_of : A -> Year) (y : Year) :
  (forall r, Runtime.prop "fiscal_year" (shape r)
             = Runtime.Returns (Runtime.VString (Year_str (year_of r)))) ->
  forall rows : list A,
    Runtime.find_by_year (Year_str y) (map shape rows)
    = Runtime.Returns
        (option_map shape (find (fun r => Year_eqb (year_of r) y) rows)).
Proof.
  intros Hshape. induction rows as [|r rows IH]; [reflexivity |].
  cbn [map Runtime.find_by_year find]. rewrite Hshape.
  cbn [Runtime.bind Runtime.is_string]. rewrite Year_str_eqb.
  destruct (Year_eqb (year_of r) y); [reflexivity | exact IH].
Qed.

Lemma yoy_line_annotated (r : YoYRow) (i : nat) :
  Runtime.yoy_line whole_numbers (Annotated.of_yoy r) i
  = Runtime.Returns (yoy_line r).
Proof.
  destruct r as [y [z|] [| |[c|]]]; try reflexivity;
    unfold Runtime.yoy_line, yoy_line; cbn;
    destruct (0 <=? c)%Z; reflexivity.
Qed.

Lemma map_from_annotated {A : Type} (shape : A -> Runtime.value number)
      (f : Runtime.value number -> nat -> Runtime.completion string)
      (g : A -> nat -> string) :
  (forall r i, f (shape r) i = Runtime.Returns (g r i)) ->
  forall (rows : list A) (i : nat),
    Runtime.map_from i f (map shape rows)
    = Runtime.Returns (mapi_from i g rows).
Proof.
  intros Hf. induction rows as [|r rows IH]; intros i; [reflexivity |].
  cbn [map Runtime.map_from mapi_from]. rewrite Hf. cbn [Runtime.bind].
  rewrite IH. reflexivity.
Qed.

Lemma mapi_from_map {A B : Type} (g : A -> B) (rows : list A) :
  forall i, mapi_from i (fun r _ => g r) rows = map g rows.
Proof.
  induction rows as [|r rows IH]; intros i; [reflexivity |].
  cbn [mapi_from map]. now rewrite IH.
Qed.

Lemma decimal_toString (n : nat) :
  Runtime.decimal n = toString (Num (Z.of_nat n)).
Proof.
  unfold Runtime.decimal, toString, sign.
  destruct (Z.ltb_spec (Z.of_nat n) 0) as [H|_]; [lia |].
  cbn [append]. rewrite <- nat_N_Z, Zabs2N.id. reflexivity.
Qed.

Lemma rank_line_annotated (r : CategoryRow) (i : nat) :
  Runtime.rank_line whole_numbers (Annotated.of_category r) i
  = Runtime.Returns (rank_line r i).
Proof.
  unfold Runtime.rank_line, rank_line. rewrite decimal_toString.
  destruct r as [c [z|]]; reflexivity.
Qed.

Lemma find_by_category_annotated (wanted : string) :
  forall rows : list (ShareRow number),
    Runtime.find_by_category whole_numbers wanted
      (map Annotated.of_share rows)
    = Runtime.Returns
        (option_map Annotated.of_share
           (find (fun r => String.eqb (toUpperCase (sh_category r)) wanted)
              rows)).
Proof.
  induction rows as [|r rows IH]; [reflexivity |].
  cbn [map Runtime.find_by_category find].
  change (Runtime.prop "category" (Annotated.of_share r))
    with (Runtime.Returns (A := Runtime.value number)
            (Runtime.VString (sh_category r))).
  cbn [Runtime.bind].
  change (Runtime.String_toUpperCase whole_numbers (sh_category r))
    with (toUpperCase (sh_category r)).
  destruct (String.eqb (toUpperCase (sh_category r)) wanted);
    [reflexivity | exact IH].
Qed.

Lemma existsb_annotated (rows : list YoYRow) :
  existsb
    (fun r => Runtime.is_string "FY26" (Runtime.member "fiscal_year" r))
    (map Annotated.of_yoy rows)
  = existsb (fun r => Year_eqb (yoy_fiscal_year r) FY26) rows.
Proof.
  induction rows as [|r rows IH]; [reflexivity |].
  cbn [map existsb]. rewrite IH. f_equal.
  destruct r as [[] ? ?]; reflexivity.
Qed.

